(** * PharmGKB drug-gene relations: the record-to-MCF mapping of [pharm.py]

    A shallow embedding of [scripts/pharmgkb/drug_gene_relations/pharm.py]
    and the properties of its identifier resolver, field formatters,
    translators and node emitters.

    Conventions of the embedding:
    - a Python [str] is a [string]; its characters are read as the code
      points U+0000..U+00FF;
    - a Python [dict] with string keys is a [gmap string _], a [set] of
      strings is a [gset string];
    - [print] and [mcf_file.write] append to two logs kept in the [world];
      the two identifier dictionaries that [main] threads through the row
      writers live in the [world] as well;
    - an exception is the [Raise] outcome of the monad [M]; what was written
      before the exception stays written. *)

From Stdlib Require Import Ascii String List Bool Arith Lia Permutation.
From stdpp Require Import base gmap strings list.

(** ** Python string primitives *)

Module PyStr.

(** The double quote character, and a string wrapped in double quotes. *)
Definition dq_char : ascii := "034"%char.
Definition dq : string := String dq_char "".
Definition quoted (s : string) : string := dq +:+ s +:+ dq.

(** [bool(s)] for a [str]: only the empty string is falsy. *)
Definition truthy (s : string) : bool :=
  match s with
  | "" => false
  | String _ _ => true
  end.

(** [str.isspace] on one character below U+0100. *)
Definition isspace (c : ascii) : bool :=
  let n := nat_of_ascii c in
  (Nat.leb 9 n && Nat.leb n 13) || (Nat.leb 28 n && Nat.leb n 32)
  || Nat.eqb n 133 || Nat.eqb n 160.

Fixpoint lstrip_by (p : ascii → bool) (s : string) : string :=
  match s with
  | "" => ""
  | String c s' => if p c then lstrip_by p s' else s
  end.

Fixpoint rstrip_by (p : ascii → bool) (s : string) : string :=
  match s with
  | "" => ""
  | String c s' =>
      match rstrip_by p s' with
      | "" => if p c then "" else String c ""
      | r => String c r
      end
  end.

Definition strip_by (p : ascii → bool) (s : string) : string :=
  lstrip_by p (rstrip_by p s).

(** [s.strip()] *)
Definition strip (s : string) : string := strip_by isspace s.

Fixpoint mem_char (c : ascii) (chars : string) : bool :=
  match chars with
  | "" => false
  | String d chars' => if decide (c = d) then true else mem_char c chars'
  end.

(** [s.strip(chars)] *)
Definition strip_chars (chars s : string) : string :=
  strip_by (λ c, mem_char c chars) s.

(** [s.split(sep)] for a separator of one character, which is what every
    call of the script passes. *)
Fixpoint split (sep : ascii) (s : string) : list string :=
  match s with
  | "" => [""]
  | String c s' =>
      if decide (c = sep) then "" :: split sep s'
      else match split sep s' with
           | [] => [String c ""]
           | t :: ts => String c t :: ts
           end
  end.

(** [s.count(c)] for a needle of one character. *)
Fixpoint count (c : ascii) (s : string) : nat :=
  match s with
  | "" => 0
  | String d s' => (if decide (d = c) then 1 else 0) + count c s'
  end.

Fixpoint startswith (p s : string) : bool :=
  match p, s with
  | "", _ => true
  | String _ _, "" => false
  | String a p', String b s' => if decide (a = b) then startswith p' s' else false
  end.

(** Left-to-right scan of [s.replace(old, new)] for a non-empty [old];
    [skip] counts the characters of a match still to be passed over. *)
Fixpoint replace_scan (old new s : string) (skip : nat) : string :=
  match s with
  | "" => ""
  | String c s' =>
      match skip with
      | S k => replace_scan old new s' k
      | 0 =>
          if startswith old s
          then new +:+ replace_scan old new s' (String.length old - 1)
          else String c (replace_scan old new s' 0)
      end
  end.

Fixpoint intersperse (new s : string) : string :=
  match s with
  | "" => ""
  | String c s' => String c (new +:+ intersperse new s')
  end.

(** [s.replace(old, new)] *)
Definition replace (old new s : string) : string :=
  match old with
  | "" => new +:+ intersperse new s
  | String _ _ => replace_scan old new s 0
  end.

(** [sep.join(l)] *)
Fixpoint join (sep : string) (l : list string) : string :=
  match l with
  | [] => ""
  | [x] => x
  | x :: l' => x +:+ sep +:+ join sep l'
  end.

(** [old in s] for strings: some suffix of [s] starts with [old]. *)
Fixpoint contains (old s : string) : bool :=
  startswith old s ||
  match s with
  | "" => false
  | String _ s' => contains old s'
  end.

(** The last character, [s[-1]], when there is one. *)
Fixpoint last_char (s : string) : option ascii :=
  match s with
  | "" => None
  | String c "" => Some c
  | String _ s' => last_char s'
  end.

(** Iterating over a [str] yields its characters as one-character strings. *)
Fixpoint chars (s : string) : list string :=
  match s with
  | "" => []
  | String c s' => String c "" :: chars s'
  end.

End PyStr.

(** ** Effects: exceptions, the output file, standard output, the identifier maps *)

Inductive exn : Type :=
| KeyError (key : string)
| IndexError
| ValueError (missing : string).

Inductive outcome (A : Type) : Type :=
| Ok (a : A)
| Raise (e : exn).
Arguments Ok {A} a.
Arguments Raise {A} e.

(** What [get_gene_dcids] returns and the gene dictionary stores: a list of
    two dcids, or the [str] it returns for an empty symbol. *)
Inductive gene_dcids : Type :=
| DcidList (l : list string)
| DcidStr (s : string).

(** [for gene_dcid in gene_dcids] *)
Definition iter_dcids (v : gene_dcids) : list string :=
  match v with
  | DcidList l => l
  | DcidStr s => PyStr.chars s
  end.

Record world : Type := World {
  mcf_file : list string;                        (* one entry per [write] *)
  stdout : list string;                          (* one entry per [print] *)
  genes_pharm_to_dcid : gmap string gene_dcids;
  drugs_pharm_to_dcid : gmap string string;
}.

Definition M (A : Type) : Type := world → outcome A * world.

Definition ret {A} (a : A) : M A := λ w, (Ok a, w).
Definition raise {A} (e : exn) : M A := λ w, (Raise e, w).
Definition bind {A B} (c : M A) (k : A → M B) : M B :=
  λ w, match c w with
       | (Ok a, w') => k a w'
       | (Raise e, w') => (Raise e, w')
       end.

Notation "x <- c ;; k" := (bind c (λ x, k))
  (at level 100, c at next level, right associativity).
Notation "c ;;; k" := (bind c (λ _, k))
  (at level 100, right associativity).

Definition print (line : string) : M unit :=
  λ w, (Ok tt, World (mcf_file w) (stdout w ++ [line])
                     (genes_pharm_to_dcid w) (drugs_pharm_to_dcid w)).

Definition write (mcf : string) : M unit :=
  λ w, (Ok tt, World (mcf_file w ++ [mcf]) (stdout w)
                     (genes_pharm_to_dcid w) (drugs_pharm_to_dcid w)).

Definition set_gene (pharm_id : string) (v : gene_dcids) : M unit :=
  λ w, (Ok tt, World (mcf_file w) (stdout w)
                     (<[pharm_id := v]> (genes_pharm_to_dcid w))
                     (drugs_pharm_to_dcid w)).

Definition set_drug (pharm_id : string) (v : string) : M unit :=
  λ w, (Ok tt, World (mcf_file w) (stdout w) (genes_pharm_to_dcid w)
                     (<[pharm_id := v]> (drugs_pharm_to_dcid w))).

Definition read {A} (f : world → A) : M A := λ w, (Ok (f w), w).

(** [d[k]] *)
Definition getitem {V} (d : gmap string V) (k : string) : M V :=
  match d !! k with
  | Some v => ret v
  | None => raise (KeyError k)
  end.

(** [for x in l: body(x)] *)
Fixpoint for_each {A} (l : list A) (body : A → M unit) : M unit :=
  match l with
  | [] => ret tt
  | x :: l' => body x ;;; for_each l' body
  end.

(** A [for] loop that updates local variables, collected in [acc]. *)
Fixpoint for_fold {A S} (l : list A) (acc : S) (body : S → A → M S) : M S :=
  match l with
  | [] => ret acc
  | x :: l' => acc' <- body acc x ;; for_fold l' acc' body
  end.

(** ** Configuration ([config.py], supplied by the caller) *)

Record config : Type := Config {
  GENE_TEMPLATE : string;
  DRUG_TEMPLATE : string;
  RELATION_TEMPLATE : string;
  ASSOCIATION_ENUM_DICT : gmap string string;
  EVIDENCE_ENUM_DICT : gmap string string;
  GENE_XREF_PROP_DICT : gmap string string;
  DRUG_XREF_PROP_DICT : gmap string string;
}.

(** ** Rows of the data frames, after [fillna('')]: every cell is a [str] *)

Module GeneRow.
Record t : Type := Make {
  PharmGKB_Accession_Id : string;
  Name : string;
  Symbol : string;
  NCBI_Gene_ID : string;
  HGNC_ID : string;
  Ensembl_Id : string;
  Alternate_Symbols : string;
  Cross_references : string;
}.
End GeneRow.

Module DrugRow.
Record t : Type := Make {
  PharmGKB_Accession_Id : string;
  Name : string;
  Trade_Names : string;
  RxNorm_Identifiers : string;
  ATC_Identifiers : string;
  PubChem_Compound_Identifiers : string;
  Type_ : string;
  SMILES : string;
  InChI : string;
  InChI_Key : string;
  Cross_references : string;
  Chembl_ID : string;
}.
End DrugRow.

Module RelationRow.
Record t : Type := Make {
  Entity1_id : string;
  Entity1_type : string;
  Entity2_id : string;
  Entity2_type : string;
  Evidence : string;
  Association : string;
  PK : string;
  PD : string;
  PMIDs : string;
}.
End RelationRow.

(** ** Identifier resolver *)

(** A candidate ChEMBL id is a [str] or null ([None] or NaN): [option string].
    [usable c] is the test [not pd.isnull(c) and c]. *)
Definition usable (c : option string) : bool :=
  match c with
  | Some s => PyStr.truthy s
  | None => false
  end.

Definition merge_chembls (chembl1 chembl2 chembl3 : option string) : option string :=
  if usable chembl1 then chembl1
  else if usable chembl2 then chembl2
  else if usable chembl3 then chembl3
  else None.

(** [fillna('')] on one cell. *)
Definition fillna (cell : option string) : string :=
  match cell with
  | Some s => s
  | None => ""
  end.

(** The ['Chembl ID'] cell of a row of [get_drugs_df()]: [merge_chembls]
    applied by [append_chembls], then [fillna('')]. *)
Definition chembl_id_cell (chembl1 chembl2 chembl3 : option string) : string :=
  fillna (merge_chembls chembl1 chembl2 chembl3).

Definition get_drug_dcid (row : DrugRow.t) : string :=
  if PyStr.truthy (DrugRow.Chembl_ID row)
  then "bio/" +:+ DrugRow.Chembl_ID row
  else "bio/" +:+ DrugRow.PharmGKB_Accession_Id row.

Definition get_gene_dcids (symbol : string) : gene_dcids :=
  if PyStr.truthy symbol
  then DcidList ["bio/hg19_" +:+ symbol; "bio/hg38_" +:+ symbol]
  else DcidStr "".

(** ** Field formatters *)

(** The body of the loop of [format_text_list]; the local variables are
    [(formatted_str, joining)]. *)
Definition format_text_list_body (text_list : string)
    (vars : string * string) (prop_value : string) : M (string * string) :=
  let '(formatted_str, joining) := vars in
  let n := PyStr.count PyStr.dq_char prop_value in
  if Nat.eqb n 0 && PyStr.truthy joining then
    ret (formatted_str, joining +:+ (prop_value +:+ ","))
  else if Nat.eqb n 0 || Nat.eqb n 2 then
    ret (formatted_str +:+
           (PyStr.dq +:+ PyStr.strip (PyStr.replace PyStr.dq "" prop_value)
              +:+ PyStr.dq +:+ ","),
         joining)
  else if Nat.eqb n 1 && PyStr.truthy joining then
    ret (formatted_str +:+
           (PyStr.strip joining +:+ PyStr.replace PyStr.dq "" prop_value
              +:+ PyStr.dq +:+ ","),
         "")
  else if Nat.eqb n 1 then
    ret (formatted_str, prop_value +:+ ",")
  else
    print ("unexpected format: " +:+ text_list) ;;;
    ret (formatted_str, joining).

(** The loop of [format_text_list] over the pieces of the split. *)
Definition format_text_list_loop (text_list : string) (pieces : list string)
    : M (string * string) :=
  for_fold pieces ("", "") (format_text_list_body text_list).

Definition format_text_list (text_list : string) : M string :=
  if negb (PyStr.truthy text_list) then ret ""
  else
    vars <- format_text_list_loop text_list (PyStr.split "," text_list) ;;
    ret (PyStr.strip_chars "," (fst vars)).

Definition format_semicolon_list (semi_list : string) : string :=
  if negb (PyStr.truthy semi_list) then ""
  else
    PyStr.strip_chars ","
      (foldl (λ formatted_str prop_value,
                formatted_str +:+ (PyStr.dq +:+ prop_value +:+ PyStr.dq +:+ ","))
             "" (PyStr.split ";" semi_list)).

Definition format_bool (text true_val : string) : string :=
  if decide (text = true_val) then "True" else "".

(** ** Enum and cross-reference translators *)

(** The body of the loop of [get_enum]. *)
Definition get_enum_body (enum_dict : gmap string string)
    (formatted_enums key : string) : M string :=
  v <- getitem enum_dict key ;;
  ret (formatted_enums +:+ ("dcid:" +:+ v +:+ ",")).

Definition get_enum (key_list : string) (enum_dict : gmap string string) : M string :=
  if negb (PyStr.truthy key_list) then ret ""
  else
    formatted_enums <- for_fold (PyStr.split "," key_list) "" (get_enum_body enum_dict) ;;
    ret (PyStr.strip_chars "," formatted_enums).

Definition newline : string := String "010"%char "".

(** The body of the loop of [get_xref_mcf]. *)
Definition get_xref_mcf_body (xrefs : string) (xref_to_label : gmap string string)
    (xref_mcf xref : string) : M string :=
  let xref_pair := PyStr.split ":" (PyStr.strip (PyStr.replace PyStr.dq "" xref)) in
  match xref_pair with
  | [] => raise IndexError
  | source :: value_parts =>
      match xref_to_label !! source with
      | None =>
          print ("unexpected format in gene xrefs:" +:+ xrefs) ;;;
          ret xref_mcf
      | Some prop_label =>
          let prop_value := PyStr.strip (PyStr.join ":" value_parts) in
          ret (xref_mcf +:+
                 (prop_label +:+ ": " +:+ PyStr.dq +:+ prop_value
                    +:+ PyStr.dq +:+ newline))
      end
  end.

Definition get_xref_mcf (xrefs : string) (xref_to_label : gmap string string) : M string :=
  if negb (PyStr.truthy xrefs) then ret ""
  else for_fold (PyStr.split "," xrefs) "" (get_xref_mcf_body xrefs xref_to_label).

(** ** Compound type *)

Definition drug_types : list string := ["Drug"; "Drug Class"; "Prodrug"].

(** [types.pop()]: the element of a one-element set; [KeyError] on the
    empty set. *)
Definition set_pop (types : gset string) : M string :=
  match elements types with
  | [] => raise (KeyError "pop from an empty set")
  | x :: _ => ret x
  end.

Definition compound_type_item (compound_type : string) : string :=
  PyStr.strip (PyStr.replace PyStr.dq "" compound_type).

Definition collect_types (items : list string) : gset string :=
  foldl (λ (types : gset string) compound_type,
           let compound_type := compound_type_item compound_type in
           if decide (compound_type ∈ drug_types)
           then types ∪ {["dcid:Drug"]}
           else types ∪ {["dcid:ChemicalCompound"]})
        ∅ items.

Definition get_compound_type (compound_types : string) : M string :=
  let types := collect_types (PyStr.split "," compound_types) in
  if decide (size types = 2) then ret "dcs:ChemicalCompound,dcs:Drug"
  else set_pop types.

(** ** Node emitters *)

Section Emitters.

Variable cfg : config.

(** The substitution of the supplied placeholders into a template, done by
    [mcf_template_filler]; its text is not inspected by the script. *)
Variable render : string → gmap string string → string.

(** Modelled from the spec: [mcf_template_filler.Filler(template,
    required_vars).fill(template_dict)], which is not part of the script.
    It substitutes only the supplied placeholders and fails if a
    placeholder declared required is absent from the supplied mapping. *)
Definition fill (template : string) (required_vars : list string)
    (template_dict : gmap string string) : M string :=
  for_each required_vars
    (λ v, if decide (template_dict !! v = None) then raise (ValueError v)
          else ret tt) ;;;
  ret (render template template_dict).

(** [{key: value for key, value in template_dict.items() if value}] *)
Definition drop_empty (template_dict : gmap string string) : gmap string string :=
  filter (λ kv, PyStr.truthy kv.2 = true) template_dict.

Definition gene_template_dict (row : GeneRow.t) (gene_dcid ncbi hgnc ensembl alt_symb : string)
    : gmap string string :=
  drop_empty (list_to_map [
    ("dcid", gene_dcid);
    ("name", GeneRow.Name row);
    ("symbol", GeneRow.Symbol row);
    ("pharm_id", GeneRow.PharmGKB_Accession_Id row);
    ("ncbi_ids", ncbi);
    ("hgnc_ids", hgnc);
    ("ensembl_ids", ensembl);
    ("alt_symbols", alt_symb) ]).

Definition get_gene_mcf (row : GeneRow.t) (gene_dcid : string) : M string :=
  ncbi <- format_text_list (GeneRow.NCBI_Gene_ID row) ;;
  hgnc <- format_text_list (GeneRow.HGNC_ID row) ;;
  ensembl <- format_text_list (GeneRow.Ensembl_Id row) ;;
  alt_symb <- format_text_list (GeneRow.Alternate_Symbols row) ;;
  mcf <- fill (GENE_TEMPLATE cfg) ["dcid"]
           (gene_template_dict row gene_dcid ncbi hgnc ensembl alt_symb) ;;
  xref_mcf <- get_xref_mcf (GeneRow.Cross_references row) (GENE_XREF_PROP_DICT cfg) ;;
  ret (mcf +:+ xref_mcf).

Definition write_gene_row (row : GeneRow.t) : M unit :=
  let gene_dcids := get_gene_dcids (GeneRow.Symbol row) in
  set_gene (GeneRow.PharmGKB_Accession_Id row) gene_dcids ;;;
  for_each (iter_dcids gene_dcids)
    (λ gene_dcid, mcf <- get_gene_mcf row gene_dcid ;; write mcf).

Definition drug_template_dict (row : DrugRow.t)
    (drug_dcid compound_type dc_name trade rx_id atc pubchem : string)
    : gmap string string :=
  drop_empty (list_to_map [
    ("dcid", drug_dcid);
    ("type", compound_type);
    ("dc_name", dc_name);
    ("name", DrugRow.Name row);
    ("trade_names", trade);
    ("smiles", DrugRow.SMILES row);
    ("inchi", DrugRow.InChI row);
    ("inchi_key", DrugRow.InChI_Key row);
    ("pharm_id", DrugRow.PharmGKB_Accession_Id row);
    ("rx_ids", rx_id);
    ("atc_ids", atc);
    ("pubchem_compound_ids", pubchem) ]).

Definition get_drug_mcf (row : DrugRow.t) (drug_dcid : string) : M string :=
  trade <- format_text_list (DrugRow.Trade_Names row) ;;
  rx_id <- format_text_list (DrugRow.RxNorm_Identifiers row) ;;
  atc <- format_text_list (DrugRow.ATC_Identifiers row) ;;
  pubchem <- format_text_list (DrugRow.PubChem_Compound_Identifiers row) ;;
  compound_type <- get_compound_type (DrugRow.Type_ row) ;;
  let dc_name := PyStr.replace "bio/" "" drug_dcid in
  mcf <- fill (DRUG_TEMPLATE cfg) ["dcid"; "type"]
           (drug_template_dict row drug_dcid compound_type dc_name trade rx_id atc pubchem) ;;
  xref_mcf <- get_xref_mcf (DrugRow.Cross_references row) (DRUG_XREF_PROP_DICT cfg) ;;
  ret (mcf +:+ xref_mcf).

Definition write_drug_row (row : DrugRow.t) : M unit :=
  let drug_dcid := get_drug_dcid row in
  set_drug (DrugRow.PharmGKB_Accession_Id row) drug_dcid ;;;
  mcf <- get_drug_mcf row drug_dcid ;;
  write mcf.

Definition relation_template_dict (drug_dcid gene_dcid drug_ref gene_ref : string)
    (pubmed pk_bool pd_bool assoc_enum evid_enum : string) : gmap string string :=
  drop_empty (list_to_map [
    ("dcid", "bio/CGA_" +:+ drug_ref +:+ "_" +:+ gene_ref);
    ("name", "CGA_" +:+ drug_ref +:+ "_" +:+ gene_ref);
    ("gene_dcid", gene_dcid);
    ("drug_dcid", drug_dcid);
    ("pubmed_ids", pubmed);
    ("pk_bool", pk_bool);
    ("pd_bool", pd_bool);
    ("assoc_enums", assoc_enum);
    ("evid_enums", evid_enum) ]).

Definition get_relation_mcf (row : RelationRow.t) (drug_dcid gene_dcid : string) : M string :=
  let drug_ref := PyStr.replace "bio/" "" drug_dcid in
  let gene_ref := PyStr.replace "bio/" "" gene_dcid in
  let pubmed := format_semicolon_list (RelationRow.PMIDs row) in
  let pk_bool := format_bool (RelationRow.PK row) "PK" in
  let pd_bool := format_bool (RelationRow.PD row) "PD" in
  assoc_enum <- get_enum (RelationRow.Association row) (ASSOCIATION_ENUM_DICT cfg) ;;
  evid_enum <- get_enum (RelationRow.Evidence row) (EVIDENCE_ENUM_DICT cfg) ;;
  fill (RELATION_TEMPLATE cfg) ["dcid"; "gene_dcid"; "drug_dcid"]
    (relation_template_dict drug_dcid gene_dcid drug_ref gene_ref
       pubmed pk_bool pd_bool assoc_enum evid_enum).

Definition write_relation_row (row : RelationRow.t) (drug_is_first : bool) : M unit :=
  let '(drug_pharm, gene_pharm) :=
    if drug_is_first
    then (RelationRow.Entity1_id row, RelationRow.Entity2_id row)
    else (RelationRow.Entity2_id row, RelationRow.Entity1_id row) in
  drugs <- read drugs_pharm_to_dcid ;;
  if decide (drugs !! drug_pharm = None) then
    print ("unrecognized drug pharm id: " +:+ drug_pharm)
  else
    genes <- read genes_pharm_to_dcid ;;
    if decide (genes !! gene_pharm = None) then
      print ("unrecognized gene pharm id: " +:+ gene_pharm)
    else
      drug_dcid <- getitem drugs drug_pharm ;;
      gene_dcids <- getitem genes gene_pharm ;;
      for_each (iter_dcids gene_dcids)
        (λ gene_dcid,
           mcf <- get_relation_mcf row drug_dcid gene_dcid ;;
           write mcf).


End Emitters.

(** A configuration and a renderer to run the emitters on concrete rows. *)
Module Sample.

Definition cfg : config := {|
  GENE_TEMPLATE := "Node: {dcid}";
  DRUG_TEMPLATE := "Node: {dcid}";
  RELATION_TEMPLATE := "Node: {dcid}";
  ASSOCIATION_ENUM_DICT := {[ "associated" := "RelationshipAssociationTypeAssociated" ]};
  EVIDENCE_ENUM_DICT := {[ "ClinicalAnnotation" := "RelationshipEvidenceTypeClinicalAnnotation" ]};
  GENE_XREF_PROP_DICT := {[ "OMIM" := "omimID" ]};
  DRUG_XREF_PROP_DICT := {[ "ChEBI" := "chebiID" ]};
|}.

(** Renders the value bound to [dcid], or the bare template. *)
Definition render (template : string) (d : gmap string string) : string :=
  match d !! "dcid" with
  | Some v => "Node: " +:+ v +:+ newline
  | None => template
  end.

Definition w0 : world := World [] [] ∅ ∅.

Definition gene (pharm_id symbol : string) : GeneRow.t :=
  GeneRow.Make pharm_id "a gene" symbol "" "" "" "" "".

Definition relation (e1 e2 assoc : string) : RelationRow.t :=
  RelationRow.Make e1 "Chemical" e2 "Gene" "" assoc "" "" "".

End Sample.

(** ** Vocabulary of the statements *)

(** The first candidate that is neither null nor empty. *)
Definition first_nonempty (candidates : list (option string)) : option string :=
  match filter (λ c, usable c = true) candidates with
  | [] => None
  | c :: _ => c
  end.

(** The two source identifiers of a relationship row, by column order. *)
Definition drug_pharm (row : RelationRow.t) (drug_is_first : bool) : string :=
  if drug_is_first then RelationRow.Entity1_id row else RelationRow.Entity2_id row.
Definition gene_pharm (row : RelationRow.t) (drug_is_first : bool) : string :=
  if drug_is_first then RelationRow.Entity2_id row else RelationRow.Entity1_id row.

(** The warning printed for a row one of whose endpoints is unknown. *)
Definition skip_warning (row : RelationRow.t) (drug_is_first : bool) (w : world) : string :=
  if decide (drugs_pharm_to_dcid w !! drug_pharm row drug_is_first = None)
  then "unrecognized drug pharm id: " +:+ drug_pharm row drug_is_first
  else "unrecognized gene pharm id: " +:+ gene_pharm row drug_is_first.

(** The world after [lines] were printed and [blocks] written. *)
Definition logged (lines : list string) (w : world) : world :=
  World (mcf_file w) (stdout w ++ lines)
        (genes_pharm_to_dcid w) (drugs_pharm_to_dcid w).
Definition written (blocks : list string) (w : world) : world :=
  World (mcf_file w ++ blocks) (stdout w)
        (genes_pharm_to_dcid w) (drugs_pharm_to_dcid w).

(** [prints c a lines]: in every world [c] returns [a] after printing
    [lines], and does nothing else. *)
Definition prints {A} (c : M A) (a : A) (lines : list string) : Prop :=
  ∀ w, c w = (Ok a, logged lines w).

(** The text of a pair up to its first colon (all of it when it has none)
    and the text after its first colon (nothing when it has none). *)
Fixpoint before_colon (pair : string) : string :=
  match pair with
  | "" => ""
  | String c pair' =>
      if decide (c = ":"%char) then "" else String c (before_colon pair')
  end.

Fixpoint after_colon (pair : string) : string :=
  match pair with
  | "" => ""
  | String c pair' =>
      if decide (c = ":"%char) then pair' else after_colon pair'
  end.

(** The pairs of a cross-reference list: its comma-separated entries, each
    without its double quotes and surrounding blanks; none for the empty
    string. *)
Definition xref_pairs (xrefs : string) : list string :=
  if PyStr.truthy xrefs
  then (λ xref, PyStr.strip (PyStr.replace PyStr.dq "" xref)) <$> PyStr.split "," xrefs
  else [].

(** The output line of a pair whose source name is a key of the mapping. *)
Definition xref_line (xref_to_label : gmap string string) (pair : string)
    : option string :=
  match xref_to_label !! before_colon pair with
  | Some prop_label =>
      Some (prop_label +:+ ": " +:+ PyStr.dq +:+ PyStr.strip (after_colon pair)
              +:+ PyStr.dq +:+ newline)
  | None => None
  end.

Definition concat_str (l : list string) : string := foldr String.append "" l.

(** Every code of a comma-separated code list is a key of the enum table
    (the empty list has no code). *)
Definition known_codes (key_list : string) (enum_dict : gmap string string) : Prop :=
  key_list = "" ∨ Forall (λ key, is_Some (enum_dict !! key)) (PyStr.split "," key_list).

(** Every dcid stored in the two identifier maps starts with [bio/]. *)
Definition dcids_prefixed (w : world) : Prop :=
  (∀ pharm_id drug_dcid,
     drugs_pharm_to_dcid w !! pharm_id = Some drug_dcid →
     PyStr.startswith "bio/" drug_dcid = true)
  ∧ (∀ pharm_id gene_dcids,
       genes_pharm_to_dcid w !! pharm_id = Some gene_dcids →
       Forall (λ gene_dcid, PyStr.startswith "bio/" gene_dcid = true)
              (iter_dcids gene_dcids)).



(** [missing] is a code of the relationship row that its enum table does
    not know: an association code, or an evidence code. *)
Definition unknown_code (cfg : config) (row : RelationRow.t) (missing : string) : Prop :=
  (RelationRow.Association row ≠ ""
   ∧ missing ∈ PyStr.split "," (RelationRow.Association row)
   ∧ ASSOCIATION_ENUM_DICT cfg !! missing = None)
  ∨ (RelationRow.Evidence row ≠ ""
     ∧ missing ∈ PyStr.split "," (RelationRow.Evidence row)
     ∧ EVIDENCE_ENUM_DICT cfg !! missing = None).

(** * Properties *)

(** ** The monad *)

Lemma logged_nil w : logged [] w = w.
Proof. destruct w; unfold logged; simpl. by rewrite app_nil_r. Qed.

Lemma logged_logged l1 l2 w : logged l2 (logged l1 w) = logged (l1 ++ l2) w.
Proof. unfold logged; simpl. by rewrite app_assoc. Qed.

Lemma written_nil w : written [] w = w.
Proof. destruct w; unfold written; simpl. by rewrite app_nil_r. Qed.

Lemma written_written b1 b2 w : written b2 (written b1 w) = written (b1 ++ b2) w.
Proof. unfold written; simpl. by rewrite app_assoc. Qed.

Lemma bind_ok {A B} (c : M A) (k : A → M B) w a w' :
  c w = (Ok a, w') → bind c k w = k a w'.
Proof. unfold bind. by intros ->. Qed.

Lemma bind_raise {A B} (c : M A) (k : A → M B) w e w' :
  c w = (Raise e, w') → bind c k w = (Raise e, w').
Proof. unfold bind. by intros ->. Qed.

Lemma prints_ret {A} (a : A) : prints (ret a) a [].
Proof. intros w. by rewrite logged_nil. Qed.

Lemma prints_print line : prints (print line) tt [line].
Proof. by intros w. Qed.

Lemma prints_bind {A B} (c : M A) (k : A → M B) a b l1 l2 :
  prints c a l1 → prints (k a) b l2 → prints (bind c k) b (l1 ++ l2).
Proof.
  intros Hc Hk w. rewrite (bind_ok _ _ _ _ _ (Hc w)), Hk.
  by rewrite logged_logged.
Qed.

Lemma for_fold_app {A S} (l1 l2 : list A) (acc : S) body w :
  for_fold (l1 ++ l2) acc body w
  = bind (for_fold l1 acc body) (λ acc', for_fold l2 acc' body) w.
Proof.
  revert acc w. induction l1 as [|x l1 IH]; intros acc w; simpl.
  - reflexivity.
  - unfold bind. destruct (body acc x w) as [[acc'|e] w']; [|reflexivity].
    rewrite IH. reflexivity.
Qed.

Lemma prints_for_fold {A S} (body : S → A → M S) :
  (∀ acc x, ∃ acc' ls, prints (body acc x) acc' ls) →
  ∀ l acc, ∃ acc' ls, prints (for_fold l acc body) acc' ls.
Proof.
  intros Hbody l. induction l as [|x l IH]; intros acc; simpl.
  - exists acc, []. apply prints_ret.
  - destruct (Hbody acc x) as (acc1 & l1 & H1).
    destruct (IH acc1) as (acc2 & l2 & H2).
    exists acc2, (l1 ++ l2). by eapply prints_bind.
Qed.

(** ** The string primitives on the cases of the Python manual *)

Example split_keeps_empty_pieces : PyStr.split "," "a,,b," = ["a"; ""; "b"; ""].
Proof. reflexivity. Qed.

Example split_of_empty : PyStr.split "," "" = [""].
Proof. reflexivity. Qed.

Example strip_blanks : PyStr.strip "  a b " = "a b".
Proof. reflexivity. Qed.

Example strip_commas : PyStr.strip_chars "," ",,a,b,," = "a,b".
Proof. reflexivity. Qed.

Example replace_every_occurrence :
  PyStr.replace "bio/" "" "bio/CHEMBLbio/1" = "CHEMBL1".
Proof. reflexivity. Qed.

Example replace_does_not_overlap : PyStr.replace "aa" "b" "aaaxaa" = "baxb".
Proof. reflexivity. Qed.

Example replace_empty_needle : PyStr.replace "" "-" "abc" = "-a-b-c-".
Proof. reflexivity. Qed.

Example join_colons : PyStr.join ":" ["a"; "b"; "c"] = "a:b:c".
Proof. reflexivity. Qed.

Example semicolon_list : format_semicolon_list "111;222;333"
  = PyStr.quoted "111" +:+ "," +:+ PyStr.quoted "222" +:+ "," +:+ PyStr.quoted "333".
Proof. reflexivity. Qed.

Example bool_flag : format_bool "PK" "PK" = "True" ∧ format_bool "" "PK" = "".
Proof. by split. Qed.

(** ** C1: the identifier resolver *)

Lemma merge_chembls_first_nonempty c1 c2 c3 :
  merge_chembls c1 c2 c3 = first_nonempty [c1; c2; c3].
Proof.
  unfold merge_chembls, first_nonempty.
  rewrite !filter_cons, filter_nil.
  destruct (usable c1) eqn:E1, (usable c2) eqn:E2, (usable c3) eqn:E3;
    repeat case_decide; congruence.
Qed.

Lemma usable_Some c : usable c = true → ∃ s, c = Some s ∧ s ≠ "".
Proof. destruct c as [[|a s]|]; simpl; try discriminate. intros _. by eexists. Qed.

(** C1. The resolver returns the first of (chembl1, chembl2, chembl3) that is
    neither null nor empty, whatever the later candidates are, and the dcid
    of the record is then [bio/] followed by that ChEMBL id; when all three
    are empty or null the resolver returns nothing and the dcid is [bio/]
    followed by the PharmGKB Accession Id of the record. *)
Theorem C1_resolver_priority (row : DrugRow.t) (chembl1 chembl2 chembl3 : option string) :
  DrugRow.Chembl_ID row = chembl_id_cell chembl1 chembl2 chembl3 →
  merge_chembls chembl1 chembl2 chembl3 = first_nonempty [chembl1; chembl2; chembl3]
  ∧ (usable chembl1 = true → merge_chembls chembl1 chembl2 chembl3 = chembl1)
  ∧ (usable chembl1 = false → usable chembl2 = true →
     merge_chembls chembl1 chembl2 chembl3 = chembl2)
  ∧ (usable chembl1 = false → usable chembl2 = false → usable chembl3 = true →
     merge_chembls chembl1 chembl2 chembl3 = chembl3)
  ∧ (∀ chembl, merge_chembls chembl1 chembl2 chembl3 = Some chembl →
     get_drug_dcid row = "bio/" +:+ chembl)
  ∧ (usable chembl1 = false → usable chembl2 = false → usable chembl3 = false →
     merge_chembls chembl1 chembl2 chembl3 = None
     ∧ get_drug_dcid row = "bio/" +:+ DrugRow.PharmGKB_Accession_Id row).
Proof.
  intros Hcell. split; [apply merge_chembls_first_nonempty|].
  unfold get_drug_dcid. rewrite Hcell. unfold chembl_id_cell, merge_chembls.
  repeat apply conj.
  - by intros ->.
  - by intros -> ->.
  - by intros -> -> ->.
  - intros chembl.
    destruct (usable chembl1) eqn:E1; [|destruct (usable chembl2) eqn:E2;
      [|destruct (usable chembl3) eqn:E3]]; intros Hm; try discriminate;
      subst; simpl;
      match goal with H : usable (Some ?s) = true |- _ =>
        simpl in H; by rewrite H end.
  - by intros -> -> ->.
Qed.

Lemma C1_resolver_priority_witness :
  let row := DrugRow.Make "PA448015" "" "" "" "" "" "" "" "" "" "" "CHEMBL25" in
  DrugRow.Chembl_ID row = chembl_id_cell (Some "") None (Some "CHEMBL25")
  ∧ merge_chembls (Some "") None (Some "CHEMBL25") = Some "CHEMBL25"
  ∧ get_drug_dcid row = "bio/CHEMBL25".
Proof.
  intros row.
  pose proof (C1_resolver_priority row (Some "") None (Some "CHEMBL25") eq_refl)
    as (_ & _ & _ & H3 & Hd & _).
  split; [reflexivity|]. split; [by apply H3|]. by apply Hd.
Defined.

(** ** C2: the quoted-list formatter on the two documented inputs *)

(** C2. Formatting [test1,"Foo, Bar","test2"] yields
    ["test1","Foo, Bar","test2"], and formatting ["a,b","c"] yields the two
    quoted tokens ["a,b"] and ["c"], although a split on commas cuts that
    input into three pieces; nothing is printed in either case. *)
Theorem C2_quoted_list_examples (w : world) :
  format_text_list ("test1," +:+ PyStr.quoted "Foo, Bar" +:+ "," +:+ PyStr.quoted "test2") w
    = (Ok (PyStr.quoted "test1" +:+ "," +:+ PyStr.quoted "Foo, Bar" +:+ ","
             +:+ PyStr.quoted "test2"), w)
  ∧ format_text_list (PyStr.quoted "a,b" +:+ "," +:+ PyStr.quoted "c") w
    = (Ok (PyStr.join "," [PyStr.quoted "a,b"; PyStr.quoted "c"]), w)
  ∧ length (PyStr.split "," (PyStr.quoted "a,b" +:+ "," +:+ PyStr.quoted "c")) = 3
  ∧ PyStr.join "," [PyStr.quoted "a,b"; PyStr.quoted "c"]
    ≠ PyStr.join "," [PyStr.quoted "a"; PyStr.quoted "b"; PyStr.quoted "c"].
Proof.
  repeat apply conj; try (vm_compute; reflexivity).
  vm_compute. discriminate.
Qed.

(** ** C3: a relationship row with an unresolved endpoint *)

Section Relation_skipped.

Variable cfg : config.
Variable render : string → gmap string string → string.

Lemma write_relation_row_no_drug row drug_is_first w :
  drugs_pharm_to_dcid w !! drug_pharm row drug_is_first = None →
  write_relation_row cfg render row drug_is_first w
  = (Ok tt, logged ["unrecognized drug pharm id: " +:+ drug_pharm row drug_is_first] w).
Proof.
  intros Hd. unfold write_relation_row, drug_pharm in *.
  destruct drug_is_first; unfold bind, read; simpl;
    (case_decide; [reflexivity | contradiction]).
Qed.

Lemma write_relation_row_no_gene row drug_is_first w :
  drugs_pharm_to_dcid w !! drug_pharm row drug_is_first ≠ None →
  genes_pharm_to_dcid w !! gene_pharm row drug_is_first = None →
  write_relation_row cfg render row drug_is_first w
  = (Ok tt, logged ["unrecognized gene pharm id: " +:+ gene_pharm row drug_is_first] w).
Proof.
  intros Hd Hg. unfold write_relation_row, drug_pharm, gene_pharm in *.
  destruct drug_is_first; unfold bind, read; simpl;
    (case_decide; [contradiction|]); (case_decide; [reflexivity | contradiction]).
Qed.

End Relation_skipped.

(** C3. If the drug's or the gene's PharmGKB id of a relationship row is not
    a key of its identifier map, [write_relation_row] returns normally, has
    printed one warning and written nothing, and the loop over the remaining
    rows goes on from there; so whenever the row makes the output file grow,
    both endpoints are keys of their maps. *)
Theorem C3_unresolved_endpoint_skipped (cfg : config)
    (render : string → gmap string string → string)
    (row : RelationRow.t) (drug_is_first : bool) (w : world) :
  (drugs_pharm_to_dcid w !! drug_pharm row drug_is_first = None
   ∨ genes_pharm_to_dcid w !! gene_pharm row drug_is_first = None →
   let w' := logged [skip_warning row drug_is_first w] w in
   write_relation_row cfg render row drug_is_first w = (Ok tt, w')
   ∧ mcf_file w' = mcf_file w
   ∧ ∀ rest,
       for_each (row :: rest) (λ r, write_relation_row cfg render r drug_is_first) w
       = for_each rest (λ r, write_relation_row cfg render r drug_is_first) w')
  ∧ (mcf_file (write_relation_row cfg render row drug_is_first w).2 ≠ mcf_file w →
     is_Some (drugs_pharm_to_dcid w !! drug_pharm row drug_is_first)
     ∧ is_Some (genes_pharm_to_dcid w !! gene_pharm row drug_is_first)).
Proof.
  assert (Hskip :
    drugs_pharm_to_dcid w !! drug_pharm row drug_is_first = None
    ∨ genes_pharm_to_dcid w !! gene_pharm row drug_is_first = None →
    write_relation_row cfg render row drug_is_first w
    = (Ok tt, logged [skip_warning row drug_is_first w] w)).
  { intros H. unfold skip_warning. case_decide as Hd.
    - by apply write_relation_row_no_drug.
    - destruct H as [H|H]; [contradiction|]. by apply write_relation_row_no_gene. }
  split.
  - intros H. specialize (Hskip H). cbv zeta. repeat apply conj.
    + exact Hskip.
    + reflexivity.
    + intros rest. simpl. by rewrite (bind_ok _ _ _ _ _ Hskip).
  - intros Hgrow.
    destruct (drugs_pharm_to_dcid w !! drug_pharm row drug_is_first) eqn:Ed;
      [destruct (genes_pharm_to_dcid w !! gene_pharm row drug_is_first) eqn:Eg|].
    + split; by eexists.
    + exfalso. apply Hgrow. by rewrite Hskip by (by right).
    + exfalso. apply Hgrow. by rewrite Hskip by (by left).
Qed.

Lemma C3_unresolved_endpoint_skipped_witness :
  let row := Sample.relation "PA1" "PA2" "associated" in
  (drugs_pharm_to_dcid Sample.w0 !! drug_pharm row true = None
   ∨ genes_pharm_to_dcid Sample.w0 !! gene_pharm row true = None)
  ∧ write_relation_row Sample.cfg Sample.render row true Sample.w0
    = (Ok tt, World [] ["unrecognized drug pharm id: PA1"] ∅ ∅).
Proof.
  intros row.
  assert (H : drugs_pharm_to_dcid Sample.w0 !! drug_pharm row true = None
              ∨ genes_pharm_to_dcid Sample.w0 !! gene_pharm row true = None)
    by (left; reflexivity).
  split; [exact H|].
  exact (proj1 (proj1 (C3_unresolved_endpoint_skipped
                         Sample.cfg Sample.render row true Sample.w0) H)).
Defined.

(** ** C8: the quoted-list formatter never fails *)

Lemma format_text_list_body_prints text_list vars prop_value :
  ∃ vars' ls, prints (format_text_list_body text_list vars prop_value) vars' ls.
Proof.
  destruct vars as [formatted_str joining]. unfold format_text_list_body.
  repeat match goal with
         | |- context [if ?b then _ else _] => destruct b
         end;
    try (eexists _, []; apply prints_ret).
  eexists _, _. eapply (prints_bind _ _ tt); [apply prints_print | apply prints_ret].
Qed.

Lemma format_text_list_body_unexpected text_list vars prop_value :
  3 ≤ PyStr.count PyStr.dq_char prop_value →
  prints (format_text_list_body text_list vars prop_value) vars
         ["unexpected format: " +:+ text_list].
Proof.
  intros Hn. destruct vars as [formatted_str joining]. unfold format_text_list_body.
  destruct (PyStr.count PyStr.dq_char prop_value) as [|[|[|n]]]; try lia.
  simpl. eapply (prints_bind _ _ tt _ [_] []); [apply prints_print | apply prints_ret].
Qed.

Lemma format_text_list_prints text_list :
  ∃ out ls, prints (format_text_list text_list) out ls.
Proof.
  unfold format_text_list. destruct (negb (PyStr.truthy text_list)).
  - exists "", []. apply prints_ret.
  - destruct (prints_for_fold _ (format_text_list_body_prints text_list)
                (PyStr.split "," text_list) ("", "")) as (vars & ls & H).
    exists (PyStr.strip_chars "," vars.1), (ls ++ []).
    eapply prints_bind; [exact H | apply prints_ret].
Qed.

(** C8. [format_text_list] returns on every string, without an exception and
    without touching the output file; the empty string gives the empty
    string; a piece of the split with three or more double quotes makes the
    loop print one line and leaves [formatted_str] and [joining] as they
    were, so the loop ends in the same state as on the pieces without it. *)
Theorem C8_quoted_list_total (text_list : string) (w : world) :
  format_text_list "" w = (Ok "", w)
  ∧ (∃ out lines, format_text_list text_list w = (Ok out, logged lines w))
  ∧ (∀ vars prop_value,
       3 ≤ PyStr.count PyStr.dq_char prop_value →
       format_text_list_body text_list vars prop_value w
       = (Ok vars, logged ["unexpected format: " +:+ text_list] w))
  ∧ (∀ before prop_value after,
       3 ≤ PyStr.count PyStr.dq_char prop_value →
       ∃ vars lines1 lines2,
         format_text_list_loop text_list (before ++ prop_value :: after) w
         = (Ok vars, logged (lines1 ++ ("unexpected format: " +:+ text_list) :: lines2) w)
         ∧ format_text_list_loop text_list (before ++ after) w
           = (Ok vars, logged (lines1 ++ lines2) w)).
Proof.
  repeat apply conj.
  - reflexivity.
  - destruct (format_text_list_prints text_list) as (out & ls & H). by exists out, ls.
  - intros vars prop_value Hn. by apply format_text_list_body_unexpected.
  - intros before prop_value after Hn. unfold format_text_list_loop.
    destruct (prints_for_fold _ (format_text_list_body_prints text_list)
                before ("", "")) as (v1 & l1 & H1).
    destruct (prints_for_fold _ (format_text_list_body_prints text_list)
                after v1) as (v2 & l2 & H2).
    exists v2, l1, l2. split.
    + rewrite for_fold_app, (bind_ok _ _ _ _ _ (H1 w)). simpl.
      rewrite (bind_ok _ _ _ _ _
                 (format_text_list_body_unexpected text_list v1 prop_value Hn _)).
      rewrite H2, !logged_logged. by rewrite <- ?app_assoc.
    + rewrite for_fold_app, (bind_ok _ _ _ _ _ (H1 w)), H2.
      by rewrite logged_logged.
Qed.

Lemma C8_quoted_list_total_witness :
  let text_list := PyStr.quoted "a" +:+ PyStr.dq +:+ ",b" in
  3 ≤ PyStr.count PyStr.dq_char (PyStr.quoted "a" +:+ PyStr.dq)
  ∧ format_text_list_body text_list ("", "") (PyStr.quoted "a" +:+ PyStr.dq) Sample.w0
    = (Ok ("", ""), logged ["unexpected format: " +:+ text_list] Sample.w0)
  ∧ format_text_list text_list Sample.w0
    = (Ok (PyStr.quoted "b"), logged ["unexpected format: " +:+ text_list] Sample.w0).
Proof.
  intros text_list.
  assert (H : 3 ≤ PyStr.count PyStr.dq_char (PyStr.quoted "a" +:+ PyStr.dq))
    by (vm_compute; lia).
  split; [exact H|]. split; [|reflexivity].
  exact (proj1 (proj2 (proj2 (C8_quoted_list_total text_list Sample.w0)))
           ("", "") (PyStr.quoted "a" +:+ PyStr.dq) H).
Defined.

(** ** C5: the type marker of a compound *)

(** Closes [s ∉ drug_types] for a literal [s]. *)
Ltac not_a_drug_type :=
  unfold drug_types;
  repeat (apply not_elem_of_cons; split; [discriminate|]);
  apply not_elem_of_nil.

Lemma split_nonempty sep s : PyStr.split sep s ≠ [].
Proof.
  destruct s as [|c s]; simpl; [done|].
  case_decide; [done|]. by destruct (PyStr.split sep s).
Qed.

Lemma elem_of_collect_types_from (acc : gset string) (items : list string) (x : string) :
  x ∈ foldl (λ (types : gset string) compound_type,
               let compound_type := compound_type_item compound_type in
               if decide (compound_type ∈ drug_types)
               then types ∪ {["dcid:Drug"]}
               else types ∪ {["dcid:ChemicalCompound"]}) acc items
  ↔ x ∈ acc
    ∨ (x = "dcid:Drug" ∧ Exists (λ i, compound_type_item i ∈ drug_types) items)
    ∨ (x = "dcid:ChemicalCompound"
       ∧ Exists (λ i, compound_type_item i ∉ drug_types) items).
Proof.
  revert acc. induction items as [|i items IH]; intros acc; simpl.
  - rewrite !Exists_nil. tauto.
  - rewrite IH, !Exists_cons.
    case_decide; rewrite elem_of_union, elem_of_singleton; tauto.
Qed.

Lemma elem_of_collect_types (items : list string) (x : string) :
  x ∈ collect_types items
  ↔ (x = "dcid:Drug" ∧ Exists (λ i, compound_type_item i ∈ drug_types) items)
    ∨ (x = "dcid:ChemicalCompound"
       ∧ Exists (λ i, compound_type_item i ∉ drug_types) items).
Proof.
  unfold collect_types. rewrite elem_of_collect_types_from, elem_of_empty. tauto.
Qed.

Lemma Forall_not_Exists_drug (items : list string) :
  Forall (λ i, compound_type_item i ∈ drug_types) items →
  ¬ Exists (λ i, compound_type_item i ∉ drug_types) items.
Proof.
  rewrite Forall_forall, Exists_exists. intros H (i & Hi & Hn). by apply Hn, H.
Qed.

Lemma Forall_not_Exists_other (items : list string) :
  Forall (λ i, compound_type_item i ∉ drug_types) items →
  ¬ Exists (λ i, compound_type_item i ∈ drug_types) items.
Proof.
  rewrite Forall_forall, Exists_exists. intros H (i & Hi & Hd). by apply (H i Hi).
Qed.

Lemma Forall_Exists_nonempty {A} (P : A → Prop) (l : list A) :
  l ≠ [] → Forall P l → Exists P l.
Proof. destruct l; [done|]. intros _ H. apply Forall_cons in H as [H _]. by left. Qed.

Lemma collect_types_all_drug items :
  items ≠ [] → Forall (λ i, compound_type_item i ∈ drug_types) items →
  collect_types items = {["dcid:Drug"]}.
Proof.
  intros Hne Hall. apply set_eq; intros x.
  rewrite elem_of_collect_types, elem_of_singleton.
  pose proof (Forall_not_Exists_drug _ Hall).
  pose proof (Forall_Exists_nonempty _ _ Hne Hall). tauto.
Qed.

Lemma collect_types_no_drug items :
  items ≠ [] → Forall (λ i, compound_type_item i ∉ drug_types) items →
  collect_types items = {["dcid:ChemicalCompound"]}.
Proof.
  intros Hne Hall. apply set_eq; intros x.
  rewrite elem_of_collect_types, elem_of_singleton.
  pose proof (Forall_not_Exists_other _ Hall).
  pose proof (Forall_Exists_nonempty _ _ Hne Hall). tauto.
Qed.

Lemma collect_types_mixed items :
  Exists (λ i, compound_type_item i ∈ drug_types) items →
  Exists (λ i, compound_type_item i ∉ drug_types) items →
  collect_types items = {["dcid:Drug"]} ∪ {["dcid:ChemicalCompound"]}.
Proof.
  intros H1 H2. apply set_eq; intros x.
  rewrite elem_of_collect_types, elem_of_union, !elem_of_singleton. tauto.
Qed.

Lemma collect_types_perm items items' :
  compound_type_item <$> items ≡ₚ compound_type_item <$> items' →
  collect_types items = collect_types items'.
Proof.
  intros Hp. apply set_eq; intros x. rewrite !elem_of_collect_types.
  assert (Hex : ∀ (P : string → Prop) l,
             Exists (λ i, P (compound_type_item i)) l
             ↔ ∃ y, y ∈ compound_type_item <$> l ∧ P y).
  { intros P l. rewrite Exists_exists. split.
    - intros (i & Hi & HP). exists (compound_type_item i).
      split; [by apply list_elem_of_fmap_2 | exact HP].
    - intros (y & Hy & HP). apply list_elem_of_fmap in Hy as (i & -> & Hi). eauto. }
  rewrite !(Hex (λ y, y ∈ drug_types)), !(Hex (λ y, y ∉ drug_types)).
  by setoid_rewrite Hp.
Qed.

Lemma Forall_items (P : string → Prop) (l : list string) :
  Forall P (compound_type_item <$> l) → Forall (λ i, P (compound_type_item i)) l.
Proof.
  intros H. apply Forall_forall. intros x Hx.
  eapply Forall_forall in H; [exact H|]. apply list_elem_of_fmap. eauto.
Qed.

Lemma Exists_items (P : string → Prop) (l : list string) :
  Exists P (compound_type_item <$> l) → Exists (λ i, P (compound_type_item i)) l.
Proof.
  rewrite !Exists_exists. intros (y & Hy & HP).
  apply list_elem_of_fmap in Hy as (x & -> & Hx). eauto.
Qed.

Lemma get_compound_type_singleton compound_types marker w :
  collect_types (PyStr.split "," compound_types) = {[marker]} →
  get_compound_type compound_types w = (Ok marker, w).
Proof.
  intros H. unfold get_compound_type. rewrite H.
  rewrite size_singleton. case_decide; [lia|].
  unfold set_pop. by rewrite elements_singleton.
Qed.

(** C5. Read the comma-separated type list as its entries, each without its
    double quotes and surrounding blanks. If every entry is one of [Drug],
    [Drug Class], [Prodrug], the type is the single marker Drug
    ([dcid:Drug]); if no entry is, it is the single marker ChemicalCompound
    ([dcid:ChemicalCompound]); if both kinds occur, it is both markers, once
    each ([dcs:ChemicalCompound,dcs:Drug]); and the result is the same for
    any other list with the same entries in another order. *)
Theorem C5_compound_type (compound_types : string) (w : world) :
  let items := compound_type_item <$> PyStr.split "," compound_types in
  (Forall (λ i, i ∈ drug_types) items →
   get_compound_type compound_types w = (Ok "dcid:Drug", w))
  ∧ (Forall (λ i, i ∉ drug_types) items →
     get_compound_type compound_types w = (Ok "dcid:ChemicalCompound", w))
  ∧ (Exists (λ i, i ∈ drug_types) items → Exists (λ i, i ∉ drug_types) items →
     get_compound_type compound_types w = (Ok "dcs:ChemicalCompound,dcs:Drug", w))
  ∧ (∀ other,
       compound_type_item <$> PyStr.split "," other ≡ₚ items →
       get_compound_type other w = get_compound_type compound_types w).
Proof.
  cbv zeta. repeat apply conj.
  - intros H. apply Forall_items in H.
    apply get_compound_type_singleton, collect_types_all_drug;
      [apply split_nonempty | exact H].
  - intros H. apply Forall_items in H.
    apply get_compound_type_singleton, collect_types_no_drug;
      [apply split_nonempty | exact H].
  - intros H1 H2. apply Exists_items in H1, H2.
    unfold get_compound_type. rewrite (collect_types_mixed _ H1 H2).
    rewrite size_union by (apply disjoint_singleton_l; by rewrite elem_of_singleton).
    rewrite !size_singleton.
    by case_decide.
  - intros other Hp. unfold get_compound_type.
    by rewrite (collect_types_perm _ _ Hp).
Qed.

Lemma C5_compound_type_witness :
  let mixed := "Drug," +:+ PyStr.quoted "Metabolite" in
  Forall (λ i, i ∈ drug_types) (compound_type_item <$> PyStr.split "," "Drug,Prodrug")
  ∧ get_compound_type "Drug,Prodrug" Sample.w0 = (Ok "dcid:Drug", Sample.w0)
  ∧ Forall (λ i, i ∉ drug_types) (compound_type_item <$> PyStr.split "," "Metabolite")
  ∧ get_compound_type "Metabolite" Sample.w0 = (Ok "dcid:ChemicalCompound", Sample.w0)
  ∧ get_compound_type mixed Sample.w0 = (Ok "dcs:ChemicalCompound,dcs:Drug", Sample.w0).
Proof.
  intros mixed.
  assert (H1 : Forall (λ i, i ∈ drug_types)
                 (compound_type_item <$> PyStr.split "," "Drug,Prodrug")).
  { vm_compute. repeat constructor. }
  assert (H2 : Forall (λ i, i ∉ drug_types)
                 (compound_type_item <$> PyStr.split "," "Metabolite")).
  { apply Forall_forall. intros i Hi. vm_compute in Hi.
    apply list_elem_of_singleton in Hi as ->. not_a_drug_type. }
  split; [exact H1|].
  split; [exact (proj1 (C5_compound_type "Drug,Prodrug" Sample.w0) H1)|].
  split; [exact H2|].
  split; [exact (proj1 (proj2 (C5_compound_type "Metabolite" Sample.w0)) H2)|].
  apply (proj1 (proj2 (proj2 (C5_compound_type mixed Sample.w0)))).
  - vm_compute. apply Exists_cons_hd. repeat constructor.
  - vm_compute. apply Exists_cons_tl, Exists_cons_hd. not_a_drug_type.
Defined.

(** ** Strings: append, strip, split and join *)

Lemma app_cons c (s t : string) : String c s +:+ t = String c (s +:+ t).
Proof. reflexivity. Qed.

Lemma app_empty_l (t : string) : "" +:+ t = t.
Proof. reflexivity. Qed.

Lemma app_empty_r (s : string) : s +:+ "" = s.
Proof. induction s as [|c s IH]; [done|]. by rewrite app_cons, IH. Qed.

Lemma app_assoc_str (s t u : string) : (s +:+ t) +:+ u = s +:+ (t +:+ u).
Proof. induction s as [|c s IH]; [done|]. by rewrite !app_cons, IH. Qed.

Lemma last_char_app_cons (s : string) c (t : string) :
  PyStr.last_char (s +:+ String c t) = PyStr.last_char (String c t).
Proof.
  induction s as [|a s IH]; [done|].
  rewrite app_cons. change (PyStr.last_char (String a (s +:+ String c t)))
    with (match s +:+ String c t with
          | "" => Some a
          | String _ _ => PyStr.last_char (s +:+ String c t)
          end).
  destruct (s +:+ String c t) eqn:E; [|exact IH].
  destruct s; discriminate.
Qed.

Lemma rstrip_by_app_char p (s : string) c :
  p c = true → PyStr.rstrip_by p (s +:+ String c "") = PyStr.rstrip_by p s.
Proof.
  intros Hc. induction s as [|a s IH].
  - simpl. by rewrite Hc.
  - rewrite app_cons. simpl. by rewrite IH.
Qed.

Lemma rstrip_by_id p (s : string) c :
  PyStr.last_char s = Some c → p c = false → PyStr.rstrip_by p s = s.
Proof.
  intros Hl Hc. induction s as [|a s IH]; [done|].
  destruct s as [|b s].
  - simpl in *. injection Hl as ->. by rewrite Hc.
  - change (PyStr.last_char (String a (String b s)))
      with (PyStr.last_char (String b s)) in Hl.
    change (PyStr.rstrip_by p (String a (String b s)))
      with (match PyStr.rstrip_by p (String b s) with
            | "" => if p a then "" else String a ""
            | r => String a r
            end).
    by rewrite (IH Hl).
Qed.

Lemma last_char_is_Some c (s : string) : is_Some (PyStr.last_char (String c s)).
Proof.
  revert c. induction s as [|b s IH]; intros c; [by eexists|].
  change (PyStr.last_char (String c (String b s))) with (PyStr.last_char (String b s)).
  apply IH.
Qed.

Lemma strip_commas_after a (s : string) c :
  a ≠ ","%char → c ≠ ","%char → PyStr.last_char (String a s) = Some c →
  PyStr.strip_chars "," (String a s +:+ ",") = String a s.
Proof.
  intros Ha Hc Hl. unfold PyStr.strip_chars, PyStr.strip_by.
  rewrite rstrip_by_app_char by reflexivity.
  rewrite (rstrip_by_id _ _ c Hl) by (simpl; by case_decide).
  simpl. by case_decide.
Qed.

(** ** C6: the enum translator *)

Lemma getitem_Some {V} (d : gmap string V) k v w :
  d !! k = Some v → getitem d k w = (Ok v, w).
Proof. unfold getitem. by intros ->. Qed.

Lemma getitem_None {V} (d : gmap string V) k w :
  d !! k = None → getitem d k w = (Raise (KeyError k), w).
Proof. unfold getitem. by intros ->. Qed.

Lemma get_enum_loop_ok enum_dict keys dcids acc w :
  Forall2 (λ key dcid, enum_dict !! key = Some dcid) keys dcids →
  for_fold keys acc (get_enum_body enum_dict) w
  = (Ok (foldl (λ acc dcid, acc +:+ ("dcid:" +:+ dcid +:+ ",")) acc dcids), w).
Proof.
  intros H. revert acc. induction H as [|key dcid keys dcids Hk _ IH]; intros acc.
  - reflexivity.
  - simpl. unfold get_enum_body at 1.
    erewrite bind_ok; [apply IH|].
    erewrite bind_ok; [reflexivity|]. by apply getitem_Some.
Qed.

Lemma get_enum_loop_missing enum_dict keys acc w :
  Exists (λ key, enum_dict !! key = None) keys →
  ∃ missing, missing ∈ keys ∧ enum_dict !! missing = None
    ∧ for_fold keys acc (get_enum_body enum_dict) w = (Raise (KeyError missing), w).
Proof.
  revert acc. induction keys as [|key keys IH]; intros acc H.
  - by apply Exists_nil in H.
  - destruct (enum_dict !! key) as [dcid|] eqn:Ek.
    + apply Exists_cons in H as [H|H]; [congruence|].
      destruct (IH (acc +:+ ("dcid:" +:+ dcid +:+ ",")) H) as (m & Hm & Hn & Hrun).
      exists m. split; [by apply list_elem_of_further|]. split; [done|].
      simpl. unfold get_enum_body at 1.
      erewrite bind_ok; [exact Hrun|].
      erewrite bind_ok; [reflexivity|]. by apply getitem_Some.
    + exists key. split; [by apply list_elem_of_here|]. split; [done|].
      simpl. unfold get_enum_body at 1.
      erewrite bind_raise; [reflexivity|].
      erewrite bind_raise; [reflexivity|]. by apply getitem_None.
Qed.

Lemma enum_entries_join (dcids : list string) (acc : string) :
  dcids ≠ [] →
  foldl (λ acc dcid, acc +:+ ("dcid:" +:+ dcid +:+ ",")) acc dcids
  = acc +:+ (PyStr.join "," (String.append "dcid:" <$> dcids) +:+ ",").
Proof.
  revert acc. induction dcids as [|v dcids IH]; intros acc Hne; [done|].
  destruct dcids as [|v' dcids]; [reflexivity|].
  change (foldl _ acc (v :: v' :: dcids))
    with (foldl (λ acc dcid, acc +:+ ("dcid:" +:+ dcid +:+ ","))
                (acc +:+ ("dcid:" +:+ v +:+ ",")) (v' :: dcids)).
  rewrite IH by done.
  change (PyStr.join "," (String.append "dcid:" <$> v :: v' :: dcids))
    with (("dcid:" +:+ v) +:+ "," +:+ PyStr.join "," (String.append "dcid:" <$> v' :: dcids)).
  by rewrite !app_assoc_str.
Qed.

Lemma enum_join_head (dcids : list string) :
  dcids ≠ [] →
  ∃ t, PyStr.join "," (String.append "dcid:" <$> dcids) = String "d" t.
Proof.
  destruct dcids as [|v [|v' dcids]]; [done| |]; intros _; by eexists.
Qed.

Lemma enum_join_last (dcids : list string) (dcid : string) :
  last dcids = Some dcid →
  PyStr.last_char (PyStr.join "," (String.append "dcid:" <$> dcids))
  = PyStr.last_char ("dcid:" +:+ dcid).
Proof.
  induction dcids as [|v dcids IH]; [done|].
  destruct dcids as [|v' dcids].
  - simpl. by intros [= ->].
  - intros Hl. change (last (v :: v' :: dcids)) with (last (v' :: dcids)) in Hl.
    change (PyStr.join "," (String.append "dcid:" <$> v :: v' :: dcids))
      with (("dcid:" +:+ v) +:+ "," +:+ PyStr.join "," (String.append "dcid:" <$> v' :: dcids)).
    destruct (enum_join_head (v' :: dcids)) as (t & Ht); [done|].
    rewrite <- (IH Hl), Ht, <- app_assoc_str. apply last_char_app_cons.
Qed.

Lemma enum_entry_last (dcid : string) :
  PyStr.last_char dcid ≠ Some ","%char →
  ∃ c, PyStr.last_char ("dcid:" +:+ dcid) = Some c ∧ c ≠ ","%char.
Proof.
  intros H. destruct dcid as [|b t].
  - exists ":"%char. split; [reflexivity | discriminate].
  - rewrite last_char_app_cons. destruct (last_char_is_Some b t) as (c & Hc).
    exists c. split; [done|]. intros ->. by apply H.
Qed.

(** C6. For a non-empty code list: if a code of the list is not a key of the
    enum table, the translation fails with the lookup error of a missing
    code and returns no text; if every code is a key, the result is the
    mapped identifiers, each prefixed with [dcid:], in the order of the
    codes and separated by commas. The identifiers of the table are taken
    not to end with a comma, which the final strip would remove. *)
Theorem C6_enum_translation (key_list : string) (enum_dict : gmap string string)
    (w : world) :
  key_list ≠ "" →
  (Exists (λ key, enum_dict !! key = None) (PyStr.split "," key_list) →
   ∃ missing,
     missing ∈ PyStr.split "," key_list ∧ enum_dict !! missing = None
     ∧ get_enum key_list enum_dict w = (Raise (KeyError missing), w))
  ∧ (∀ dcids,
       Forall2 (λ key dcid, enum_dict !! key = Some dcid)
               (PyStr.split "," key_list) dcids →
       (∀ dcid, last dcids = Some dcid → PyStr.last_char dcid ≠ Some ","%char) →
       length dcids = length (PyStr.split "," key_list)
       ∧ get_enum key_list enum_dict w
         = (Ok (PyStr.join "," (String.append "dcid:" <$> dcids)), w)).
Proof.
  intros Hne. unfold get_enum.
  destruct key_list as [|c0 key_list]; [done|]. cbn [negb PyStr.truthy]. split.
  - intros Hex.
    destruct (get_enum_loop_missing enum_dict _ "" w Hex) as (m & Hm & Hn & Hrun).
    exists m. split; [done|]. split; [done|]. by erewrite bind_raise.
  - intros dcids Hall Hlast. split; [symmetry; by eapply Forall2_length|].
    erewrite bind_ok; [|by apply get_enum_loop_ok].
    assert (Hd : dcids ≠ []).
    { intros ->. apply Forall2_nil_inv_r in Hall. by apply split_nonempty in Hall. }
    rewrite enum_entries_join, app_empty_l by done.
    destruct (last dcids) as [dcid|] eqn:El; [|by apply last_None in El].
    destruct (enum_entry_last dcid (Hlast dcid eq_refl)) as (c & Hc & Hcomma).
    destruct (enum_join_head dcids Hd) as (t & Ht).
    pose proof (enum_join_last dcids dcid El) as Hj. rewrite Hc, Ht in Hj.
    unfold ret. rewrite Ht. f_equal. f_equal.
    by apply (strip_commas_after _ _ c).
Qed.

Lemma C6_enum_translation_witness :
  let enum_dict : gmap string string :=
    {[ "associated" := "RelationshipAssociationTypeAssociated" ]} in
  let dcid := "RelationshipAssociationTypeAssociated" in
  "associated,ambiguous" ≠ ""
  ∧ Exists (λ key, enum_dict !! key = None) (PyStr.split "," "associated,ambiguous")
  ∧ (∃ missing,
       enum_dict !! missing = None
       ∧ get_enum "associated,ambiguous" enum_dict Sample.w0
         = (Raise (KeyError missing), Sample.w0))
  ∧ Forall2 (λ key dcid, enum_dict !! key = Some dcid)
            (PyStr.split "," "associated,associated") [dcid; dcid]
  ∧ get_enum "associated,associated" enum_dict Sample.w0
    = (Ok ("dcid:" +:+ dcid +:+ ",dcid:" +:+ dcid), Sample.w0).
Proof.
  intros enum_dict dcid.
  assert (Hne : "associated,ambiguous" ≠ "") by discriminate.
  assert (Hex : Exists (λ key, enum_dict !! key = None)
                  (PyStr.split "," "associated,ambiguous")).
  { vm_compute. apply Exists_cons_tl, Exists_cons_hd. reflexivity. }
  assert (Hne' : "associated,associated" ≠ "") by discriminate.
  assert (Hall : Forall2 (λ key dcid, enum_dict !! key = Some dcid)
                   (PyStr.split "," "associated,associated") [dcid; dcid]).
  { vm_compute. repeat constructor. }
  assert (Hlast : ∀ d, last [dcid; dcid] = Some d → PyStr.last_char d ≠ Some ","%char).
  { intros d [= <-]. vm_compute. discriminate. }
  split; [exact Hne|]. split; [exact Hex|]. split.
  - destruct (proj1 (C6_enum_translation "associated,ambiguous" enum_dict Sample.w0 Hne)
                Hex) as (missing & _ & Hn & Hrun).
    exists missing. by split.
  - split; [exact Hall|].
    exact (proj2 (proj2 (C6_enum_translation "associated,associated" enum_dict
                           Sample.w0 Hne') [dcid; dcid] Hall Hlast)).
Defined.

(** ** C7: the cross-reference translator *)

Lemma join_cons_cons sep x y (l : list string) :
  PyStr.join sep (x :: y :: l) = x +:+ sep +:+ PyStr.join sep (y :: l).
Proof. reflexivity. Qed.

Lemma join_split sep (s : string) :
  PyStr.join (String sep "") (PyStr.split sep s) = s.
Proof.
  induction s as [|c s IH]; [reflexivity|]. simpl.
  pose proof (split_nonempty sep s) as Hne.
  destruct (PyStr.split sep s) as [|t ts]; [done|].
  case_decide as Hc.
  - subst c. by rewrite join_cons_cons, IH.
  - destruct ts as [|t' ts].
    + simpl in *. by rewrite IH.
    + rewrite join_cons_cons in *. by rewrite app_cons, IH.
Qed.

Lemma split_colon (pair : string) :
  ∃ value_parts,
    PyStr.split ":" pair = before_colon pair :: value_parts
    ∧ PyStr.join ":" value_parts = after_colon pair.
Proof.
  induction pair as [|c pair (parts & Hs & Hj)].
  - by exists [].
  - simpl. case_decide as Hc.
    + exists (PyStr.split ":" pair). split; [done|]. apply join_split.
    + rewrite Hs. by exists parts.
Qed.

Lemma colon_before_after (source value : string) :
  PyStr.contains ":" source = false →
  before_colon (source +:+ ":" +:+ value) = source
  ∧ after_colon (source +:+ ":" +:+ value) = value.
Proof.
  induction source as [|c source IH]; intros Hc.
  - by split.
  - rewrite app_cons. simpl in *.
    destruct (decide (":"%char = c)) as [E|E]; [discriminate|].
    destruct (decide (c = ":"%char)) as [E'|_]; [congruence|].
    simpl in Hc. by destruct (IH Hc) as [-> ->].
Qed.

Lemma get_xref_mcf_body_run xrefs xref_to_label xref_mcf xref w :
  get_xref_mcf_body xrefs xref_to_label xref_mcf xref w
  = match xref_line xref_to_label (PyStr.strip (PyStr.replace PyStr.dq "" xref)) with
    | Some line => (Ok (xref_mcf +:+ line), w)
    | None => (Ok xref_mcf, logged ["unexpected format in gene xrefs:" +:+ xrefs] w)
    end.
Proof.
  unfold get_xref_mcf_body, xref_line.
  destruct (split_colon (PyStr.strip (PyStr.replace PyStr.dq "" xref)))
    as (parts & -> & Hj).
  destruct (xref_to_label !! _); [|reflexivity]. by rewrite Hj.
Qed.

Lemma get_xref_mcf_loop xrefs xref_to_label (pieces : list string) xref_mcf w :
  for_fold pieces xref_mcf (get_xref_mcf_body xrefs xref_to_label) w
  = (Ok (xref_mcf +:+
           concat_str (omap (xref_line xref_to_label)
             ((λ xref, PyStr.strip (PyStr.replace PyStr.dq "" xref)) <$> pieces))),
     logged ((λ _, "unexpected format in gene xrefs:" +:+ xrefs)
               <$> filter (λ pair, xref_line xref_to_label pair = None)
                     ((λ xref, PyStr.strip (PyStr.replace PyStr.dq "" xref)) <$> pieces))
            w).
Proof.
  revert xref_mcf w.
  induction pieces as [|xref pieces IH]; intros xref_mcf w.
  - simpl. by rewrite app_empty_r, logged_nil.
  - simpl for_fold. unfold bind. rewrite get_xref_mcf_body_run.
    rewrite fmap_cons, filter_cons. simpl omap.
    destruct (xref_line xref_to_label _) as [line|] eqn:El.
    + rewrite IH. case_decide; [done|]. simpl. by rewrite app_assoc_str.
    + rewrite IH. case_decide; [|done]. by rewrite logged_logged.
Qed.

Lemma get_xref_mcf_run xrefs xref_to_label w :
  get_xref_mcf xrefs xref_to_label w
  = (Ok (concat_str (omap (xref_line xref_to_label) (xref_pairs xrefs))),
     logged ((λ _, "unexpected format in gene xrefs:" +:+ xrefs)
               <$> filter (λ pair, xref_line xref_to_label pair = None)
                     (xref_pairs xrefs)) w).
Proof.
  unfold get_xref_mcf, xref_pairs. destruct (PyStr.truthy xrefs); cbn [negb].
  - rewrite get_xref_mcf_loop. by rewrite app_empty_l.
  - unfold ret. by rewrite logged_nil.
Qed.

(** C7. Read the cross-reference list as its comma-separated pairs, each
    without its double quotes and surrounding blanks, the source name of a
    pair being its text up to the first colon and its value the text after
    the first colon, later colons included, without surrounding blanks. The
    translator returns normally: its text is one line [label: "value"] for
    each pair whose source name is a key of the mapping, in order, and it
    has printed one line for every other pair, which is left out. *)
Theorem C7_xref_translation (xrefs : string) (xref_to_label : gmap string string)
    (w : world) :
  get_xref_mcf xrefs xref_to_label w
  = (Ok (concat_str (omap (xref_line xref_to_label) (xref_pairs xrefs))),
     logged ((λ _, "unexpected format in gene xrefs:" +:+ xrefs)
               <$> filter (λ pair, xref_line xref_to_label pair = None)
                     (xref_pairs xrefs)) w)
  ∧ (∀ pair, xref_line xref_to_label pair = None
             ↔ xref_to_label !! before_colon pair = None)
  ∧ (∀ pair prop_label,
       xref_to_label !! before_colon pair = Some prop_label →
       xref_line xref_to_label pair
       = Some (prop_label +:+ ": " +:+ PyStr.quoted (PyStr.strip (after_colon pair))
                 +:+ newline))
  ∧ (∀ source value,
       PyStr.contains ":" source = false →
       before_colon (source +:+ ":" +:+ value) = source
       ∧ after_colon (source +:+ ":" +:+ value) = value).
Proof.
  repeat apply conj.
  - apply get_xref_mcf_run.
  - intros pair. unfold xref_line. by destruct (xref_to_label !! _).
  - intros pair prop_label H. unfold xref_line, PyStr.quoted. rewrite H.
    by rewrite !app_assoc_str.
  - apply colon_before_after.
Qed.

Lemma C7_xref_translation_witness :
  let xref_to_label : gmap string string := {[ "ChEBI" := "chebiID" ]} in
  let xrefs := PyStr.quoted "ChEBI:CHEBI:15365" +:+ "," +:+ PyStr.quoted "KEGG:D00109" in
  PyStr.contains ":" "ChEBI" = false
  ∧ before_colon "ChEBI:CHEBI:15365" = "ChEBI"
  ∧ after_colon "ChEBI:CHEBI:15365" = "CHEBI:15365"
  ∧ get_xref_mcf xrefs xref_to_label Sample.w0
    = (Ok ("chebiID: " +:+ PyStr.quoted "CHEBI:15365" +:+ newline),
       logged ["unexpected format in gene xrefs:" +:+ xrefs] Sample.w0).
Proof.
  intros xref_to_label xrefs.
  assert (H : PyStr.contains ":" "ChEBI" = false) by reflexivity.
  pose proof (C7_xref_translation xrefs xref_to_label Sample.w0) as (Hrun & _ & _ & Hc).
  split; [exact H|].
  split; [exact (proj1 (Hc "ChEBI" "CHEBI:15365" H))|].
  split; [exact (proj2 (Hc "ChEBI" "CHEBI:15365" H))|].
  exact Hrun.
Defined.

(** ** The template filler and the template dictionaries *)

Lemma lookup_drop_empty_Some (m : gmap string string) k v :
  m !! k = Some v → v ≠ "" → drop_empty m !! k = Some v.
Proof.
  intros Hk Hv. unfold drop_empty. apply map_lookup_filter_Some_2; [done|].
  simpl. by destruct v.
Qed.


Section Filler_properties.

Variable cfg : config.
Variable render : string → gmap string string → string.

Lemma fill_run template required_vars template_dict :
  Forall (λ v, is_Some (template_dict !! v)) required_vars →
  prints (fill render template required_vars template_dict)
         (render template template_dict) [].
Proof.
  intros Hreq w. unfold fill. rewrite logged_nil.
  assert (Hloop : for_each required_vars
            (λ v, if decide (template_dict !! v = None)
                  then raise (ValueError v) else ret tt) w = (Ok tt, w)).
  { induction Hreq as [|v vs [x Hv] _ IH]; [reflexivity|].
    simpl. unfold bind. case_decide; [congruence|]. exact IH. }
  by rewrite (bind_ok _ _ _ _ _ Hloop).
Qed.

Lemma get_gene_mcf_run row :
  ∃ ncbi hgnc ensembl alt_symb xref_mcf lines,
    ∀ gene_dcid, gene_dcid ≠ "" →
      prints (get_gene_mcf cfg render row gene_dcid)
             (render (GENE_TEMPLATE cfg)
                (gene_template_dict row gene_dcid ncbi hgnc ensembl alt_symb)
              +:+ xref_mcf)
             lines.
Proof.
  destruct (format_text_list_prints (GeneRow.NCBI_Gene_ID row)) as (ncbi & l1 & H1).
  destruct (format_text_list_prints (GeneRow.HGNC_ID row)) as (hgnc & l2 & H2).
  destruct (format_text_list_prints (GeneRow.Ensembl_Id row)) as (ensembl & l3 & H3).
  destruct (format_text_list_prints (GeneRow.Alternate_Symbols row))
    as (alt_symb & l4 & H4).
  eexists ncbi, hgnc, ensembl, alt_symb, _, _. intros gene_dcid Hne.
  unfold get_gene_mcf.
  eapply prints_bind; [exact H1|]. eapply prints_bind; [exact H2|].
  eapply prints_bind; [exact H3|]. eapply prints_bind; [exact H4|].
  eapply prints_bind.
  { apply fill_run. repeat constructor.
    exists gene_dcid. by apply lookup_drop_empty_Some; [apply lookup_insert_eq|]. }
  eapply prints_bind; [intros w; apply get_xref_mcf_run|]. apply prints_ret.
Qed.

End Filler_properties.

(** ** C4 and C9: gene emission *)






(** C9. For a gene row with an empty symbol, [get_gene_dcids] returns the
    empty string, and [write_gene_row] writes no block and binds the
    PharmGKB id of the row to that empty string. In any later world where
    the gene id of a relationship row is bound to the empty string, the id
    is a key of the gene map, the row writes no block and raises nothing,
    and when its drug id is a key too nothing is printed either. *)
Theorem C9_empty_symbol (cfg : config)
    (render : string → gmap string string → string)
    (row : GeneRow.t) (w : world) :
  GeneRow.Symbol row = "" →
  get_gene_dcids (GeneRow.Symbol row) = DcidStr ""
  ∧ write_gene_row cfg render row w
    = (Ok tt,
       World (mcf_file w) (stdout w)
             (<[GeneRow.PharmGKB_Accession_Id row := DcidStr ""]>
                (genes_pharm_to_dcid w))
             (drugs_pharm_to_dcid w))
  ∧ genes_pharm_to_dcid (write_gene_row cfg render row w).2
      !! GeneRow.PharmGKB_Accession_Id row = Some (DcidStr "")
  ∧ ∀ (relation : RelationRow.t) (drug_is_first : bool) (later : world),
      genes_pharm_to_dcid later !! gene_pharm relation drug_is_first
        = Some (DcidStr "") →
      genes_pharm_to_dcid later !! gene_pharm relation drug_is_first ≠ None
      ∧ (write_relation_row cfg render relation drug_is_first later).1 = Ok tt
      ∧ mcf_file (write_relation_row cfg render relation drug_is_first later).2
        = mcf_file later
      ∧ (is_Some (drugs_pharm_to_dcid later !! drug_pharm relation drug_is_first) →
         write_relation_row cfg render relation drug_is_first later = (Ok tt, later)).
Proof.
  intros Hsym. rewrite Hsym.
  assert (Hrun : write_gene_row cfg render row w
    = (Ok tt,
       World (mcf_file w) (stdout w)
             (<[GeneRow.PharmGKB_Accession_Id row := DcidStr ""]>
                (genes_pharm_to_dcid w))
             (drugs_pharm_to_dcid w))).
  { unfold write_gene_row. by rewrite Hsym. }
  repeat apply conj.
  - reflexivity.
  - exact Hrun.
  - rewrite Hrun. apply lookup_insert_eq.
  - intros relation drug_is_first later Hg.
    assert (Hres : ∀ drug_dcid,
      drugs_pharm_to_dcid later !! drug_pharm relation drug_is_first = Some drug_dcid →
      write_relation_row cfg render relation drug_is_first later = (Ok tt, later)).
    { intros drug_dcid Hd. unfold write_relation_row, drug_pharm, gene_pharm in *.
      destruct drug_is_first; unfold bind, read; simpl;
        (case_decide; [congruence|]); (case_decide; [congruence|]);
        unfold getitem; rewrite Hd, Hg; by destruct later. }
    split; [congruence|].
    destruct (drugs_pharm_to_dcid later !! drug_pharm relation drug_is_first)
      as [drug_dcid|] eqn:Ed.
    + rewrite (Hres drug_dcid eq_refl). by repeat apply conj.
    + rewrite (write_relation_row_no_drug cfg render _ _ _ Ed).
      repeat apply conj; try reflexivity. by intros [? ?].
Qed.

Lemma C9_empty_symbol_witness :
  let row := Sample.gene "PA1" "" in
  let relation := Sample.relation "PA9" "PA1" "associated" in
  let later := World [] [] {[ "PA1" := DcidStr "" ]} {[ "PA9" := "bio/CHEMBL25" ]} in
  GeneRow.Symbol row = ""
  ∧ write_gene_row Sample.cfg Sample.render row Sample.w0
    = (Ok tt, World [] [] {[ "PA1" := DcidStr "" ]} ∅)
  ∧ genes_pharm_to_dcid later !! gene_pharm relation true = Some (DcidStr "")
  ∧ write_relation_row Sample.cfg Sample.render relation true later = (Ok tt, later).
Proof.
  intros row relation later.
  assert (H : GeneRow.Symbol row = "") by reflexivity.
  assert (Hg : genes_pharm_to_dcid later !! gene_pharm relation true
               = Some (DcidStr "")) by reflexivity.
  pose proof (C9_empty_symbol Sample.cfg Sample.render row Sample.w0 H)
    as (_ & Hrun & _ & Hlater).
  split; [exact H|]. split; [exact Hrun|]. split; [exact Hg|].
  apply (Hlater relation true later Hg). by eexists.
Defined.

(** ** C10: relationship emission *)

Lemma replace_scan_absent old new (s : string) :
  PyStr.contains old s = false → PyStr.replace_scan old new s 0 = s.
Proof.
  induction s as [|c s IH]; [done|]. intros H.
  change (PyStr.contains old (String c s))
    with (PyStr.startswith old (String c s) || PyStr.contains old s) in H.
  apply orb_false_iff in H as [Hs Hc].
  change (PyStr.replace_scan old new (String c s) 0)
    with (if PyStr.startswith old (String c s)
          then new +:+ PyStr.replace_scan old new s (String.length old - 1)
          else String c (PyStr.replace_scan old new s 0)).
  by rewrite Hs, (IH Hc).
Qed.


Lemma Forall_is_Some_Forall2 (enum_dict : gmap string string) (keys : list string) :
  Forall (λ key, is_Some (enum_dict !! key)) keys →
  ∃ dcids, Forall2 (λ key dcid, enum_dict !! key = Some dcid) keys dcids.
Proof.
  induction 1 as [|key keys [dcid Hk] _ (dcids & IH)].
  - by exists [].
  - exists (dcid :: dcids). by constructor.
Qed.

Lemma get_enum_known key_list enum_dict :
  known_codes key_list enum_dict →
  ∃ enums, prints (get_enum key_list enum_dict) enums [].
Proof.
  intros [->|Hall].
  - exists "". apply prints_ret.
  - destruct (Forall_is_Some_Forall2 _ _ Hall) as (dcids & H2).
    unfold get_enum. destruct (negb (PyStr.truthy key_list)).
    + exists "". apply prints_ret.
    + eexists. intros w. rewrite logged_nil.
      erewrite bind_ok; [reflexivity|]. by apply get_enum_loop_ok.
Qed.

Lemma relation_template_dict_required drug_dcid gene_dcid drug_ref gene_ref
    pubmed pk_bool pd_bool assoc_enum evid_enum :
  drug_dcid ≠ "" → gene_dcid ≠ "" →
  let template_dict :=
    relation_template_dict drug_dcid gene_dcid drug_ref gene_ref
      pubmed pk_bool pd_bool assoc_enum evid_enum in
  template_dict !! "dcid" = Some ("bio/CGA_" +:+ drug_ref +:+ "_" +:+ gene_ref)
  ∧ template_dict !! "gene_dcid" = Some gene_dcid
  ∧ template_dict !! "drug_dcid" = Some drug_dcid.
Proof.
  intros Hd Hg. cbv zeta. unfold relation_template_dict. simpl list_to_map.
  repeat apply conj; apply lookup_drop_empty_Some; try done;
    rewrite ?lookup_insert_ne by done; apply lookup_insert_eq.
Qed.

Section Relation_emitted.

Variable cfg : config.
Variable render : string → gmap string string → string.

Lemma get_relation_mcf_run row drug_dcid gene_dcid assoc_enum evid_enum :
  prints (get_enum (RelationRow.Association row) (ASSOCIATION_ENUM_DICT cfg))
         assoc_enum [] →
  prints (get_enum (RelationRow.Evidence row) (EVIDENCE_ENUM_DICT cfg))
         evid_enum [] →
  drug_dcid ≠ "" → gene_dcid ≠ "" →
  prints (get_relation_mcf cfg render row drug_dcid gene_dcid)
    (render (RELATION_TEMPLATE cfg)
       (relation_template_dict drug_dcid gene_dcid
          (PyStr.replace "bio/" "" drug_dcid) (PyStr.replace "bio/" "" gene_dcid)
          (format_semicolon_list (RelationRow.PMIDs row))
          (format_bool (RelationRow.PK row) "PK")
          (format_bool (RelationRow.PD row) "PD")
          assoc_enum evid_enum))
    [].
Proof.
  intros Ha He Hd Hg. unfold get_relation_mcf.
  eapply (prints_bind _ _ _ _ [] []); [exact Ha|].
  eapply (prints_bind _ _ _ _ [] []); [exact He|].
  apply fill_run.
  destruct (relation_template_dict_required drug_dcid gene_dcid
              (PyStr.replace "bio/" "" drug_dcid) (PyStr.replace "bio/" "" gene_dcid)
              (format_semicolon_list (RelationRow.PMIDs row))
              (format_bool (RelationRow.PK row) "PK")
              (format_bool (RelationRow.PD row) "PD")
              assoc_enum evid_enum Hd Hg) as (H1 & H2 & H3).
  repeat constructor; by eexists.
Qed.

Lemma write_blocks_run {A} (l : list A) (mcf_of : A → M string) (block : A → string) w :
  Forall (λ x, prints (mcf_of x) (block x) []) l →
  for_each l (λ x, mcf <- mcf_of x ;; write mcf) w
  = (Ok tt, written (block <$> l) w).
Proof.
  intros H. revert w. induction H as [|x l Hx _ IH]; intros w.
  - simpl. unfold ret. by rewrite written_nil.
  - simpl. unfold bind at 1. unfold bind at 1.
    rewrite (Hx w), logged_nil. unfold write at 1. cbv beta iota.
    rewrite IH. unfold written. simpl. by rewrite <- app_assoc.
Qed.

End Relation_emitted.

(** What the row writers store satisfies the side conditions on dcids. *)
Lemma get_drug_dcid_nonempty (row : DrugRow.t) : get_drug_dcid row ≠ "".
Proof. unfold get_drug_dcid. by destruct (PyStr.truthy _). Qed.

Lemma get_gene_dcids_nonempty (symbol : string) :
  Forall (λ gene_dcid, gene_dcid ≠ "") (iter_dcids (get_gene_dcids symbol)).
Proof.
  unfold get_gene_dcids. destruct (PyStr.truthy symbol); simpl; by repeat constructor.
Qed.





(** * Further properties of the formatters and emitters *)

(** ** Joining entries that start and end with a fixed character *)

Lemma entries_join (f : string → string) (l : list string) (acc : string) :
  l ≠ [] →
  foldl (λ acc x, acc +:+ (f x +:+ ",")) acc l
  = acc +:+ (PyStr.join "," (f <$> l) +:+ ",").
Proof.
  revert acc. induction l as [|x l IH]; intros acc Hne; [done|].
  destruct l as [|y l]; [reflexivity|].
  change (foldl _ acc (x :: y :: l))
    with (foldl (λ acc x, acc +:+ (f x +:+ ",")) (acc +:+ (f x +:+ ",")) (y :: l)).
  rewrite IH by done.
  change (PyStr.join "," (f <$> x :: y :: l))
    with (f x +:+ "," +:+ PyStr.join "," (f <$> y :: l)).
  by rewrite !app_assoc_str.
Qed.

Lemma join_head (f : string → string) a sep (l : list string) :
  (∀ x, ∃ t, f x = String a t) → l ≠ [] →
  ∃ t, PyStr.join sep (f <$> l) = String a t.
Proof.
  intros Hf Hne. destruct l as [|x [|y l]]; [done| |].
  - apply Hf.
  - destruct (Hf x) as (t & Ht). rewrite fmap_cons, fmap_cons, join_cons_cons, Ht.
    by eexists.
Qed.

Lemma join_last (f : string → string) a sep (l : list string) x :
  (∀ x, ∃ t, f x = String a t) → last l = Some x →
  PyStr.last_char (PyStr.join sep (f <$> l)) = PyStr.last_char (f x).
Proof.
  intros Hf. induction l as [|y l IH]; [done|].
  destruct l as [|z l].
  - simpl. by intros [= ->].
  - rewrite last_cons_cons. intros Hl.
    rewrite fmap_cons. change (f <$> z :: l) with (f z :: (f <$> l)).
    rewrite join_cons_cons. change (f z :: (f <$> l)) with (f <$> z :: l).
    destruct (join_head f a sep (z :: l) Hf) as (t & Ht); [done|].
    rewrite <- (IH Hl), Ht, <- app_assoc_str. apply last_char_app_cons.
Qed.

Lemma quoted_head (s : string) : ∃ t, PyStr.quoted s = String PyStr.dq_char t.
Proof. by eexists. Qed.

Lemma quoted_last (s : string) :
  PyStr.last_char (PyStr.quoted s) = Some PyStr.dq_char.
Proof.
  unfold PyStr.quoted, PyStr.dq. rewrite <- app_assoc_str.
  apply last_char_app_cons.
Qed.

Lemma strip_commas_quoted_entries (f : string → string) (l : list string) :
  (∀ x, ∃ s, f x = PyStr.quoted s) → l ≠ [] →
  PyStr.strip_chars "," (PyStr.join "," (f <$> l) +:+ ",") = PyStr.join "," (f <$> l).
Proof.
  intros Hf Hne.
  assert (Hhead : ∀ x, ∃ t, f x = String PyStr.dq_char t).
  { intros x. destruct (Hf x) as (s & ->). apply quoted_head. }
  destruct (join_head f _ "," l Hhead Hne) as (t & Ht).
  destruct (last l) as [x|] eqn:El; [|by apply last_None in El].
  pose proof (join_last f _ "," l x Hhead El) as Hl.
  destruct (Hf x) as (s & Hs). rewrite Hs, quoted_last, Ht in Hl.
  rewrite Ht. by apply (strip_commas_after _ _ PyStr.dq_char).
Qed.

Lemma foldl_pointwise {A B} (g h : A → B → A) (l : list B) (acc : A) :
  (∀ acc x, g acc x = h acc x) → foldl g acc l = foldl h acc l.
Proof.
  intros Hgh. revert acc. induction l as [|x l IH]; intros acc; [done|].
  simpl. by rewrite Hgh, IH.
Qed.

(** ** The semicolon-list formatter *)

Lemma format_semicolon_list_nonempty (semi_list : string) :
  semi_list ≠ "" →
  format_semicolon_list semi_list
  = PyStr.join "," (PyStr.quoted <$> PyStr.split ";" semi_list).
Proof.
  intros Hne. unfold format_semicolon_list.
  destruct semi_list as [|c s]; [done|]. cbn [negb PyStr.truthy].
  rewrite (foldl_pointwise _ (λ acc x, acc +:+ (PyStr.quoted x +:+ ","))).
  2:{ intros acc x. unfold PyStr.quoted. by rewrite !app_assoc_str. }
  rewrite entries_join by apply split_nonempty. rewrite app_empty_l.
  apply strip_commas_quoted_entries; [by eexists | apply split_nonempty].
Qed.

(** X1. [format_semicolon_list] returns the empty string on the empty
    string, and on any other input the pieces between semicolons, each
    wrapped in double quotes as it stands (blanks kept, empty pieces kept),
    separated by commas. *)
Theorem X1_semicolon_list (semi_list : string) :
  format_semicolon_list "" = ""
  ∧ (semi_list ≠ "" →
     format_semicolon_list semi_list
     = PyStr.join "," (PyStr.quoted <$> PyStr.split ";" semi_list)).
Proof. split; [reflexivity | apply format_semicolon_list_nonempty]. Qed.

Lemma X1_semicolon_list_witness :
  "111; 222;" ≠ ""
  ∧ format_semicolon_list "111; 222;"
    = PyStr.quoted "111" +:+ "," +:+ PyStr.quoted " 222" +:+ "," +:+ PyStr.quoted "".
Proof.
  assert (H : "111; 222;" ≠ "") by discriminate.
  split; [exact H|]. exact (proj2 (X1_semicolon_list "111; 222;") H).
Defined.

(** ** The quoted-list formatter on text without double quotes *)

Lemma count_split_zero c sep (s : string) :
  PyStr.count c s = 0 → Forall (λ t, PyStr.count c t = 0) (PyStr.split sep s).
Proof.
  induction s as [|a s IH]; intros Hc.
  - by repeat constructor.
  - simpl in Hc. destruct (decide (a = c)) as [|Hac]; [discriminate|].
    simpl in Hc. specialize (IH Hc). simpl.
    destruct (decide (a = sep)); [by constructor|].
    destruct (PyStr.split sep s) as [|t ts].
    + repeat constructor. simpl. by destruct (decide (a = c)).
    + apply Forall_cons in IH as [Ht Hts]. constructor; [|done].
      simpl. by destruct (decide (a = c)).
Qed.

Lemma contains_char_absent c (s : string) :
  PyStr.count c s = 0 → PyStr.contains (String c "") s = false.
Proof.
  induction s as [|a s IH]; intros Hc; [done|].
  simpl in Hc. destruct (decide (a = c)) as [|Hac]; [discriminate|].
  simpl in Hc.
  change (PyStr.contains (String c "") (String a s))
    with ((if decide (c = a) then PyStr.startswith "" s else false)
          || PyStr.contains (String c "") s).
  rewrite (IH Hc). by destruct (decide (c = a)) as [->|].
Qed.

Lemma replace_char_absent c new (s : string) :
  PyStr.count c s = 0 → PyStr.replace (String c "") new s = s.
Proof. intros H. by apply replace_scan_absent, contains_char_absent. Qed.

Lemma format_text_list_body_unquoted text_list acc t w :
  PyStr.count PyStr.dq_char t = 0 →
  format_text_list_body text_list (acc, "") t w
  = (Ok (acc +:+ (PyStr.quoted (PyStr.strip t) +:+ ","), ""), w).
Proof.
  intros Ht. pose proof (replace_char_absent PyStr.dq_char "" t Ht) as Hr.
  change (String PyStr.dq_char "") with PyStr.dq in Hr.
  unfold format_text_list_body. rewrite Ht, Hr.
  cbn [Nat.eqb PyStr.truthy andb orb]. unfold ret, PyStr.quoted.
  by rewrite !app_assoc_str.
Qed.

Lemma format_text_list_loop_unquoted text_list (pieces : list string) acc w :
  Forall (λ t, PyStr.count PyStr.dq_char t = 0) pieces →
  for_fold pieces (acc, "") (format_text_list_body text_list) w
  = (Ok (foldl (λ acc t, acc +:+ (PyStr.quoted (PyStr.strip t) +:+ ",")) acc pieces, ""),
     w).
Proof.
  intros H. revert acc. induction H as [|t pieces Ht _ IH]; intros acc; [done|].
  cbn [for_fold foldl].
  rewrite (bind_ok _ _ _ _ _ (format_text_list_body_unquoted text_list acc t w Ht)).
  apply IH.
Qed.

Lemma format_text_list_unquoted text_list w :
  PyStr.count PyStr.dq_char text_list = 0 → text_list ≠ "" →
  format_text_list text_list w
  = (Ok (PyStr.join "," ((λ t, PyStr.quoted (PyStr.strip t))
                           <$> PyStr.split "," text_list)), w).
Proof.
  intros Hq Hne. unfold format_text_list, format_text_list_loop.
  assert (Ht : PyStr.truthy text_list = true) by (by destruct text_list).
  rewrite Ht. cbn [negb].
  erewrite bind_ok;
    [|by apply format_text_list_loop_unquoted, count_split_zero].
  unfold ret. cbn [fst].
  rewrite (entries_join (λ t, PyStr.quoted (PyStr.strip t))) by apply split_nonempty.
  rewrite app_empty_l.
  by rewrite strip_commas_quoted_entries; [| by eexists | apply split_nonempty].
Qed.

(** X2. On a non-empty text without any double quote, [format_text_list]
    prints nothing and returns the pieces between commas, each stripped of
    surrounding blanks and wrapped in double quotes, separated by commas;
    empty pieces are kept as empty quoted items. *)
Theorem X2_quoted_list_unquoted (text_list : string) (w : world) :
  PyStr.count PyStr.dq_char text_list = 0 → text_list ≠ "" →
  format_text_list text_list w
  = (Ok (PyStr.join "," ((λ t, PyStr.quoted (PyStr.strip t))
                           <$> PyStr.split "," text_list)), w).
Proof. apply format_text_list_unquoted. Qed.

Lemma X2_quoted_list_unquoted_witness :
  PyStr.count PyStr.dq_char "1234, 5678,," = 0
  ∧ "1234, 5678,," ≠ ""
  ∧ format_text_list "1234, 5678,," Sample.w0
    = (Ok (PyStr.quoted "1234" +:+ "," +:+ PyStr.quoted "5678" +:+ ","
             +:+ PyStr.quoted "" +:+ "," +:+ PyStr.quoted ""), Sample.w0).
Proof.
  assert (H1 : PyStr.count PyStr.dq_char "1234, 5678,," = 0) by reflexivity.
  assert (H2 : "1234, 5678,," ≠ "") by discriminate.
  split; [exact H1|]. split; [exact H2|].
  exact (X2_quoted_list_unquoted "1234, 5678,," Sample.w0 H1 H2).
Defined.

(** ** Formatting a formatted list again *)

Lemma count_app c (s t : string) :
  PyStr.count c (s +:+ t) = PyStr.count c s + PyStr.count c t.
Proof.
  induction s as [|a s IH]; [done|]. rewrite app_cons. simpl. rewrite IH. lia.
Qed.

Lemma count_cons_zero c a (s : string) :
  PyStr.count c (String a s) = 0 ↔ a ≠ c ∧ PyStr.count c s = 0.
Proof.
  simpl. destruct (decide (a = c)) as [E|E]; simpl.
  - split; [discriminate | by intros [? _]].
  - split; [by intros ? | by intros [_ ?]].
Qed.

Lemma split_pieces_no_sep sep (s : string) :
  Forall (λ t, PyStr.count sep t = 0) (PyStr.split sep s).
Proof.
  induction s as [|a s IH]; [by repeat constructor|]. simpl.
  destruct (decide (a = sep)) as [|Hne]; [by constructor|].
  destruct (PyStr.split sep s) as [|t ts].
  - repeat constructor. by apply count_cons_zero.
  - apply Forall_cons in IH as [Ht Hts]. constructor; [|done].
    by apply count_cons_zero.
Qed.

Lemma split_no_sep sep (s : string) :
  PyStr.count sep s = 0 → PyStr.split sep s = [s].
Proof.
  induction s as [|a s IH]; [done|]. intros [Hne Hs]%count_cons_zero.
  simpl. destruct (decide (a = sep)); [done|]. by rewrite (IH Hs).
Qed.

Lemma split_app_sep sep (s t : string) :
  PyStr.count sep s = 0 →
  PyStr.split sep (s +:+ String sep t) = s :: PyStr.split sep t.
Proof.
  induction s as [|a s IH].
  - intros _. rewrite app_empty_l. simpl. by destruct (decide (sep = sep)).
  - intros [Hne Hs]%count_cons_zero. rewrite app_cons. simpl.
    destruct (decide (a = sep)); [done|]. by rewrite (IH Hs).
Qed.

Lemma split_join sep (l : list string) :
  l ≠ [] → Forall (λ t, PyStr.count sep t = 0) l →
  PyStr.split sep (PyStr.join (String sep "") l) = l.
Proof.
  induction l as [|x l IH]; [done|]. intros _ [Hx Hl]%Forall_cons.
  destruct l as [|y l].
  - by apply split_no_sep.
  - rewrite join_cons_cons.
    change (String sep "" +:+ PyStr.join (String sep "") (y :: l))
      with (String sep (PyStr.join (String sep "") (y :: l))).
    rewrite split_app_sep by done. by rewrite IH.
Qed.

Lemma count_lstrip_zero c p (s : string) :
  PyStr.count c s = 0 → PyStr.count c (PyStr.lstrip_by p s) = 0.
Proof.
  induction s as [|a s IH]; [done|]. intros H. simpl PyStr.lstrip_by.
  destruct (p a); [|done]. apply count_cons_zero in H as [_ H]. by apply IH.
Qed.

Lemma count_rstrip_zero c p (s : string) :
  PyStr.count c s = 0 → PyStr.count c (PyStr.rstrip_by p s) = 0.
Proof.
  induction s as [|a s IH]; [done|]. intros [Ha Hs]%count_cons_zero.
  simpl PyStr.rstrip_by. specialize (IH Hs).
  destruct (PyStr.rstrip_by p s) as [|b r].
  - destruct (p a); [done|]. by apply count_cons_zero.
  - by apply count_cons_zero.
Qed.

Lemma count_strip_zero c (s : string) :
  PyStr.count c s = 0 → PyStr.count c (PyStr.strip s) = 0.
Proof. intros H. by apply count_lstrip_zero, count_rstrip_zero. Qed.

Lemma lstrip_by_idemp p (s : string) :
  PyStr.lstrip_by p (PyStr.lstrip_by p s) = PyStr.lstrip_by p s.
Proof.
  induction s as [|a s IH]; [done|]. simpl.
  destruct (p a) eqn:Ha; [done|]. simpl. by rewrite Ha.
Qed.

Lemma rstrip_by_last p (s : string) :
  PyStr.rstrip_by p s = ""
  ∨ ∃ c, PyStr.last_char (PyStr.rstrip_by p s) = Some c ∧ p c = false.
Proof.
  induction s as [|a s IH]; [by left|]. simpl.
  destruct (PyStr.rstrip_by p s) as [|b r].
  - destruct (p a) eqn:Ha; [by left|]. right. by exists a.
  - right. destruct IH as [|IH]; [done|]. exact IH.
Qed.

Lemma lstrip_by_last p (s : string) c :
  PyStr.last_char s = Some c →
  PyStr.lstrip_by p s = "" ∨ PyStr.last_char (PyStr.lstrip_by p s) = Some c.
Proof.
  induction s as [|a s IH]; [done|]. intros Hl. simpl PyStr.lstrip_by.
  destruct (p a); [|by right].
  destruct s as [|b s]; [by left|]. by apply IH.
Qed.

Lemma strip_by_idemp p (s : string) :
  PyStr.strip_by p (PyStr.strip_by p s) = PyStr.strip_by p s.
Proof.
  unfold PyStr.strip_by.
  assert (Hfix : PyStr.rstrip_by p (PyStr.lstrip_by p (PyStr.rstrip_by p s))
                 = PyStr.lstrip_by p (PyStr.rstrip_by p s)).
  { destruct (rstrip_by_last p s) as [->|(c & Hl & Hc)]; [done|].
    destruct (lstrip_by_last p _ c Hl) as [->|Hl']; [done|].
    by apply (rstrip_by_id p _ c). }
  by rewrite Hfix, lstrip_by_idemp.
Qed.

Lemma replace_scan_quote_end (x : string) :
  PyStr.count PyStr.dq_char x = 0 →
  PyStr.replace_scan PyStr.dq "" (x +:+ PyStr.dq) 0 = x.
Proof.
  induction x as [|a x IH]; [done|]. intros [Hne Hx]%count_cons_zero.
  rewrite app_cons.
  change (PyStr.replace_scan PyStr.dq "" (String a (x +:+ PyStr.dq)) 0)
    with (if (if decide (PyStr.dq_char = a)
              then PyStr.startswith "" (x +:+ PyStr.dq) else false)
          then "" +:+ PyStr.replace_scan PyStr.dq "" (x +:+ PyStr.dq) 0
          else String a (PyStr.replace_scan PyStr.dq "" (x +:+ PyStr.dq) 0)).
  destruct (decide (PyStr.dq_char = a)); [congruence|]. by rewrite (IH Hx).
Qed.

Lemma replace_quoted (x : string) :
  PyStr.count PyStr.dq_char x = 0 →
  PyStr.replace PyStr.dq "" (PyStr.quoted x) = x.
Proof.
  intros Hx.
  change (PyStr.replace PyStr.dq "" (PyStr.quoted x))
    with ("" +:+ PyStr.replace_scan PyStr.dq "" (x +:+ PyStr.dq) 0).
  by rewrite app_empty_l, replace_scan_quote_end.
Qed.

Lemma count_quoted (x : string) :
  PyStr.count PyStr.dq_char x = 0 →
  PyStr.count PyStr.dq_char (PyStr.quoted x) = 2.
Proof.
  intros Hx. unfold PyStr.quoted. rewrite !count_app, Hx. reflexivity.
Qed.

Lemma format_text_list_body_quoted text_list acc x w :
  PyStr.count PyStr.dq_char x = 0 →
  format_text_list_body text_list (acc, "") (PyStr.quoted (PyStr.strip x)) w
  = (Ok (acc +:+ (PyStr.quoted (PyStr.strip x) +:+ ","), ""), w).
Proof.
  intros Hx. apply count_strip_zero in Hx.
  unfold format_text_list_body.
  rewrite (count_quoted _ Hx), (replace_quoted _ Hx).
  cbn [Nat.eqb PyStr.truthy andb orb]. unfold PyStr.strip at 1.
  rewrite strip_by_idemp. unfold ret, PyStr.quoted.
  by rewrite !app_assoc_str.
Qed.

Lemma format_text_list_loop_quoted text_list (pieces : list string) acc w :
  Forall (λ t, PyStr.count PyStr.dq_char t = 0) pieces →
  for_fold ((λ t, PyStr.quoted (PyStr.strip t)) <$> pieces) (acc, "")
           (format_text_list_body text_list) w
  = (Ok (foldl (λ acc t, acc +:+ (PyStr.quoted (PyStr.strip t) +:+ ",")) acc pieces, ""),
     w).
Proof.
  intros H. revert acc. induction H as [|t pieces Ht _ IH]; intros acc; [done|].
  rewrite fmap_cons. cbn [for_fold foldl].
  rewrite (bind_ok _ _ _ _ _ (format_text_list_body_quoted text_list acc t w Ht)).
  apply IH.
Qed.

Lemma format_text_list_formatted text_list w :
  PyStr.count PyStr.dq_char text_list = 0 → text_list ≠ "" →
  let out := PyStr.join "," ((λ t, PyStr.quoted (PyStr.strip t))
                               <$> PyStr.split "," text_list) in
  format_text_list out w = (Ok out, w).
Proof.
  intros Hq Hne out.
  assert (Hhead : ∀ x, ∃ t, PyStr.quoted (PyStr.strip x) = String PyStr.dq_char t)
    by (intros x; apply quoted_head).
  destruct (join_head (λ t, PyStr.quoted (PyStr.strip t)) _ ","
              (PyStr.split "," text_list) Hhead (split_nonempty _ _)) as (t & Ht).
  assert (Hsplit : PyStr.split "," out
                   = (λ t, PyStr.quoted (PyStr.strip t)) <$> PyStr.split "," text_list).
  { apply (split_join ","%char).
    - intros Hnil. apply fmap_nil_inv in Hnil. by apply split_nonempty in Hnil.
    - apply Forall_fmap. eapply Forall_impl; [apply (split_pieces_no_sep ","%char)|].
      intros x Hx. simpl. unfold PyStr.quoted. rewrite !count_app.
      by rewrite (count_strip_zero _ _ Hx). }
  unfold format_text_list, format_text_list_loop. rewrite Hsplit.
  assert (Htr : PyStr.truthy out = true) by (subst out; by rewrite Ht).
  rewrite Htr. cbn [negb].
  erewrite bind_ok;
    [|by apply format_text_list_loop_quoted, count_split_zero].
  unfold ret. cbn [fst].
  rewrite (entries_join (λ t, PyStr.quoted (PyStr.strip t))) by apply split_nonempty.
  rewrite app_empty_l.
  by rewrite strip_commas_quoted_entries; [| by eexists | apply split_nonempty].
Qed.

(** X3. Formatting is stable on text without double quotes: the list that
    [format_text_list] returns for such a text is returned unchanged when it
    is formatted again, and neither run prints. *)
Theorem X3_quoted_list_stable (text_list : string) (w : world) :
  PyStr.count PyStr.dq_char text_list = 0 →
  ∃ out,
    format_text_list text_list w = (Ok out, w)
    ∧ format_text_list out w = (Ok out, w).
Proof.
  intros Hq. destruct (decide (text_list = "")) as [->|Hne].
  - by exists "".
  - eexists. split; [by apply format_text_list_unquoted|].
    by apply format_text_list_formatted.
Qed.

Lemma X3_quoted_list_stable_witness :
  PyStr.count PyStr.dq_char "CYP2D6, P450 2D6" = 0
  ∧ ∃ out,
      format_text_list "CYP2D6, P450 2D6" Sample.w0 = (Ok out, Sample.w0)
      ∧ format_text_list out Sample.w0 = (Ok out, Sample.w0).
Proof.
  assert (H : PyStr.count PyStr.dq_char "CYP2D6, P450 2D6" = 0) by reflexivity.
  split; [exact H|]. exact (X3_quoted_list_stable "CYP2D6, P450 2D6" Sample.w0 H).
Defined.

(** ** An opening quote that is never closed *)

Lemma split_app sep (s t : string) :
  PyStr.split sep (s +:+ String sep t) = PyStr.split sep s ++ PyStr.split sep t.
Proof.
  induction s as [|a s IH].
  - rewrite app_empty_l. simpl. by destruct (decide (sep = sep)).
  - rewrite app_cons. simpl. destruct (decide (a = sep)); [by rewrite IH|].
    rewrite IH. pose proof (split_nonempty sep s) as Hne.
    by destruct (PyStr.split sep s).
Qed.

Lemma split_cons_piece sep a (s : string) :
  a ≠ sep →
  ∃ p ps, PyStr.split sep s = p :: ps ∧ PyStr.split sep (String a s) = String a p :: ps.
Proof.
  intros Hne. simpl. destruct (decide (a = sep)); [done|].
  pose proof (split_nonempty sep s) as Hs.
  destruct (PyStr.split sep s) as [|p ps]; [done|]. by exists p, ps.
Qed.

Lemma format_text_list_loop_joining text_list (pieces : list string)
    formatted_str joining w :
  Forall (λ t, PyStr.count PyStr.dq_char t = 0) pieces →
  PyStr.truthy joining = true →
  ∃ joining',
    for_fold pieces (formatted_str, joining) (format_text_list_body text_list) w
    = (Ok (formatted_str, joining'), w).
Proof.
  intros H. revert joining. induction H as [|t pieces Ht _ IH]; intros joining Hj.
  - by exists joining.
  - destruct (IH (joining +:+ (t +:+ ","))) as (j' & Hrun).
    { destruct joining; [done|]. by rewrite app_cons. }
    exists j'. cbn [for_fold]. erewrite bind_ok; [exact Hrun|].
    unfold format_text_list_body. rewrite Ht, Hj. reflexivity.
Qed.

Lemma format_text_list_unclosed t u w :
  PyStr.count PyStr.dq_char t = 0 → PyStr.count PyStr.dq_char u = 0 →
  format_text_list (t +:+ "," +:+ PyStr.dq +:+ u) w
  = (Ok (PyStr.join "," ((λ t, PyStr.quoted (PyStr.strip t)) <$> PyStr.split "," t)), w).
Proof.
  intros Ht Hu. set (text_list := t +:+ "," +:+ PyStr.dq +:+ u).
  assert (Htr : PyStr.truthy text_list = true) by (subst text_list; by destruct t).
  unfold format_text_list, format_text_list_loop. rewrite Htr. cbn [negb].
  assert (Hsplit : PyStr.split "," text_list
                   = PyStr.split "," t ++ PyStr.split "," (String PyStr.dq_char u))
    by (subst text_list; apply (split_app ","%char)).
  destruct (split_cons_piece ","%char PyStr.dq_char u) as (p & ps & Hps & Hq);
    [discriminate|].
  pose proof (count_split_zero _ ","%char _ Hu) as Hpieces.
  rewrite Hps in Hpieces. apply Forall_cons in Hpieces as [Hp Hrest].
  destruct (format_text_list_loop_joining text_list ps
              (foldl (λ acc t, acc +:+ (PyStr.quoted (PyStr.strip t) +:+ ","))
                     "" (PyStr.split "," t))
              (String PyStr.dq_char p +:+ ",") w Hrest eq_refl) as (j' & Hloop).
  erewrite bind_ok.
  2:{ rewrite Hsplit, Hq, for_fold_app.
      erewrite bind_ok;
        [|by apply format_text_list_loop_unquoted, count_split_zero].
      cbn [for_fold]. erewrite bind_ok; [exact Hloop|].
      unfold format_text_list_body.
      assert (Hc : PyStr.count PyStr.dq_char (String PyStr.dq_char p) = 1)
        by (simpl; by rewrite Hp).
      rewrite Hc. reflexivity. }
  unfold ret. cbn [fst].
  rewrite (entries_join (λ t, PyStr.quoted (PyStr.strip t))) by apply split_nonempty.
  rewrite app_empty_l.
  by rewrite strip_commas_quoted_entries; [| by eexists | apply split_nonempty].
Qed.

(** X4. An item that opens with a double quote which is never closed is
    lost without a message: when a text without double quotes is followed
    by a comma, one double quote and more text without double quotes,
    [format_text_list] returns only the formatted items before that quote
    and prints nothing. *)
Theorem X4_unclosed_quote_dropped (t u : string) (w : world) :
  PyStr.count PyStr.dq_char t = 0 → PyStr.count PyStr.dq_char u = 0 →
  format_text_list (t +:+ "," +:+ PyStr.dq +:+ u) w
  = (Ok (PyStr.join "," ((λ t, PyStr.quoted (PyStr.strip t)) <$> PyStr.split "," t)), w).
Proof. apply format_text_list_unclosed. Qed.

Lemma X4_unclosed_quote_dropped_witness :
  PyStr.count PyStr.dq_char "aspirin" = 0
  ∧ PyStr.count PyStr.dq_char "Bayer, generic" = 0
  ∧ format_text_list ("aspirin," +:+ PyStr.dq +:+ "Bayer, generic") Sample.w0
    = (Ok (PyStr.quoted "aspirin"), Sample.w0).
Proof.
  assert (H1 : PyStr.count PyStr.dq_char "aspirin" = 0) by reflexivity.
  assert (H2 : PyStr.count PyStr.dq_char "Bayer, generic" = 0) by reflexivity.
  split; [exact H1|]. split; [exact H2|].
  exact (X4_unclosed_quote_dropped "aspirin" "Bayer, generic" Sample.w0 H1 H2).
Defined.

(** ** The compound type is always defined *)

Lemma collect_types_cases (items : list string) :
  items ≠ [] →
  collect_types items = {["dcid:Drug"]}
  ∨ collect_types items = {["dcid:ChemicalCompound"]}
  ∨ collect_types items = {["dcid:Drug"]} ∪ {["dcid:ChemicalCompound"]}.
Proof.
  intros Hne.
  destruct (decide (Exists (λ i, compound_type_item i ∈ drug_types) items)) as [Hd|Hd].
  - destruct (decide (Exists (λ i, compound_type_item i ∉ drug_types) items))
      as [Ho|Ho].
    + right; right. by apply collect_types_mixed.
    + left. apply collect_types_all_drug; [done|].
      apply Forall_forall. intros i Hi.
      destruct (decide (compound_type_item i ∈ drug_types)) as [|Hn]; [done|].
      exfalso. apply Ho, Exists_exists. eauto.
  - right; left. apply collect_types_no_drug; [done|].
    apply Forall_forall. intros i Hi Hin. apply Hd, Exists_exists. eauto.
Qed.

Lemma get_compound_type_total compound_types w :
  ∃ marker,
    get_compound_type compound_types w = (Ok marker, w)
    ∧ marker ∈ ["dcid:Drug"; "dcid:ChemicalCompound"; "dcs:ChemicalCompound,dcs:Drug"].
Proof.
  destruct (collect_types_cases (PyStr.split "," compound_types) (split_nonempty _ _))
    as [H|[H|H]].
  - exists "dcid:Drug". split; [by apply get_compound_type_singleton|].
    apply list_elem_of_here.
  - exists "dcid:ChemicalCompound". split; [by apply get_compound_type_singleton|].
    apply list_elem_of_further, list_elem_of_here.
  - exists "dcs:ChemicalCompound,dcs:Drug". split.
    + unfold get_compound_type. rewrite H.
      rewrite size_union by (apply disjoint_singleton_l; by rewrite elem_of_singleton).
      rewrite !size_singleton. by case_decide.
    + do 2 apply list_elem_of_further. apply list_elem_of_here.
Qed.

(** X5. [get_compound_type] never fails: on every string, the empty one
    included, it returns one of the three texts [dcid:Drug],
    [dcid:ChemicalCompound] and [dcs:ChemicalCompound,dcs:Drug] (the set it
    pops from is never empty), and the empty string and a lone unknown
    label both give [dcid:ChemicalCompound]. *)
Theorem X5_compound_type_total (compound_types : string) (w : world) :
  (∃ marker,
     get_compound_type compound_types w = (Ok marker, w)
     ∧ marker ∈ ["dcid:Drug"; "dcid:ChemicalCompound"; "dcs:ChemicalCompound,dcs:Drug"])
  ∧ get_compound_type "" w = (Ok "dcid:ChemicalCompound", w)
  ∧ (PyStr.count ","%char compound_types = 0 →
     compound_type_item compound_types ∉ drug_types →
     get_compound_type compound_types w = (Ok "dcid:ChemicalCompound", w)).
Proof.
  repeat apply conj.
  - apply get_compound_type_total.
  - apply get_compound_type_singleton, collect_types_no_drug; [done|].
    repeat constructor. vm_compute. not_a_drug_type.
  - intros Hc Hn. apply get_compound_type_singleton.
    rewrite (split_no_sep _ _ Hc). apply collect_types_no_drug; [done|].
    by repeat constructor.
Qed.

Lemma X5_compound_type_total_witness :
  PyStr.count ","%char "Ion" = 0
  ∧ (compound_type_item "Ion" ∉ drug_types)
  ∧ get_compound_type "Ion" Sample.w0 = (Ok "dcid:ChemicalCompound", Sample.w0).
Proof.
  assert (H1 : PyStr.count ","%char "Ion" = 0) by reflexivity.
  assert (H2 : compound_type_item "Ion" ∉ drug_types) by (vm_compute; not_a_drug_type).
  split; [exact H1|]. split; [exact H2|].
  exact (proj2 (proj2 (X5_compound_type_total "Ion" Sample.w0)) H1 H2).
Defined.


(** ** The row writers never fail on gene and drug rows *)

Lemma for_each_write_prints {A} (l : list A) (mcf_of : A → M string)
    (block : A → string) (lines : A → list string) w :
  Forall (λ x, prints (mcf_of x) (block x) (lines x)) l →
  for_each l (λ x, mcf <- mcf_of x ;; write mcf) w
  = (Ok tt, World (mcf_file w ++ (block <$> l))
                  (stdout w ++ concat (lines <$> l))
                  (genes_pharm_to_dcid w) (drugs_pharm_to_dcid w)).
Proof.
  intros H. revert w. induction H as [|x l Hx _ IH]; intros w.
  - simpl. unfold ret. rewrite !app_nil_r. by destruct w.
  - cbn [for_each]. unfold bind at 1. unfold bind at 1.
    rewrite (Hx w). unfold write at 1. cbv beta iota.
    rewrite IH. unfold logged. simpl. by rewrite <- !app_assoc.
Qed.

Lemma get_compound_type_prints compound_types :
  ∃ marker,
    marker ∈ ["dcid:Drug"; "dcid:ChemicalCompound"; "dcs:ChemicalCompound,dcs:Drug"]
    ∧ prints (get_compound_type compound_types) marker [].
Proof.
  destruct (collect_types_cases (PyStr.split "," compound_types) (split_nonempty _ _))
    as [H|[H|H]].
  - exists "dcid:Drug". split; [apply list_elem_of_here|].
    intros w. rewrite logged_nil. by apply get_compound_type_singleton.
  - exists "dcid:ChemicalCompound".
    split; [apply list_elem_of_further, list_elem_of_here|].
    intros w. rewrite logged_nil. by apply get_compound_type_singleton.
  - exists "dcs:ChemicalCompound,dcs:Drug".
    split; [do 2 apply list_elem_of_further; apply list_elem_of_here|].
    intros w. rewrite logged_nil. unfold get_compound_type. rewrite H.
    rewrite size_union by (apply disjoint_singleton_l; by rewrite elem_of_singleton).
    rewrite !size_singleton. by case_decide.
Qed.

Lemma drug_template_dict_required row drug_dcid compound_type dc_name
    trade rx_id atc pubchem :
  drug_dcid ≠ "" → compound_type ≠ "" →
  drug_template_dict row drug_dcid compound_type dc_name trade rx_id atc pubchem
    !! "dcid" = Some drug_dcid
  ∧ drug_template_dict row drug_dcid compound_type dc_name trade rx_id atc pubchem
      !! "type" = Some compound_type.
Proof.
  intros Hd Ht. unfold drug_template_dict. simpl list_to_map.
  split; apply lookup_drop_empty_Some; try done;
    rewrite ?lookup_insert_ne by done; apply lookup_insert_eq.
Qed.

Section Writers_run.

Variable cfg : config.
Variable render : string → gmap string string → string.

Lemma write_gene_row_run row :
  ∃ blocks lines,
    length blocks = length (iter_dcids (get_gene_dcids (GeneRow.Symbol row)))
    ∧ ∀ w, write_gene_row cfg render row w
           = (Ok tt,
              World (mcf_file w ++ blocks) (stdout w ++ lines)
                    (<[GeneRow.PharmGKB_Accession_Id row
                       := get_gene_dcids (GeneRow.Symbol row)]>
                       (genes_pharm_to_dcid w))
                    (drugs_pharm_to_dcid w)).
Proof.
  destruct (get_gene_mcf_run cfg render row)
    as (ncbi & hgnc & ensembl & alt_symb & xref_mcf & ls & Hmcf).
  pose (block := λ gene_dcid,
          render (GENE_TEMPLATE cfg)
            (gene_template_dict row gene_dcid ncbi hgnc ensembl alt_symb) +:+ xref_mcf).
  assert (Hall : Forall (λ gene_dcid,
                   prints (get_gene_mcf cfg render row gene_dcid) (block gene_dcid) ls)
                   (iter_dcids (get_gene_dcids (GeneRow.Symbol row)))).
  { eapply Forall_impl; [apply get_gene_dcids_nonempty|].
    intros gene_dcid Hne. apply (Hmcf gene_dcid Hne). }
  exists (block <$> iter_dcids (get_gene_dcids (GeneRow.Symbol row))),
         (concat ((λ _, ls) <$> iter_dcids (get_gene_dcids (GeneRow.Symbol row)))).
  split; [by rewrite length_fmap|].
  intros w. unfold write_gene_row, bind at 1, set_gene at 1. cbv beta iota zeta.
  by rewrite (for_each_write_prints _ _ block (λ _, ls) _ Hall).
Qed.

Lemma get_drug_mcf_run row :
  ∃ compound_type trade rx_id atc pubchem xref_mcf lines,
    compound_type ∈ ["dcid:Drug"; "dcid:ChemicalCompound";
                     "dcs:ChemicalCompound,dcs:Drug"]
    ∧ ∀ drug_dcid, drug_dcid ≠ "" →
        prints (get_drug_mcf cfg render row drug_dcid)
               (render (DRUG_TEMPLATE cfg)
                  (drug_template_dict row drug_dcid compound_type
                     (PyStr.replace "bio/" "" drug_dcid) trade rx_id atc pubchem)
                +:+ xref_mcf)
               lines.
Proof.
  destruct (format_text_list_prints (DrugRow.Trade_Names row)) as (trade & l1 & H1).
  destruct (format_text_list_prints (DrugRow.RxNorm_Identifiers row))
    as (rx_id & l2 & H2).
  destruct (format_text_list_prints (DrugRow.ATC_Identifiers row)) as (atc & l3 & H3).
  destruct (format_text_list_prints (DrugRow.PubChem_Compound_Identifiers row))
    as (pubchem & l4 & H4).
  destruct (get_compound_type_prints (DrugRow.Type_ row)) as (ct & Hin & Hct).
  eexists ct, trade, rx_id, atc, pubchem, _, _. split; [exact Hin|].
  intros drug_dcid Hne. unfold get_drug_mcf.
  eapply prints_bind; [exact H1|]. eapply prints_bind; [exact H2|].
  eapply prints_bind; [exact H3|]. eapply prints_bind; [exact H4|].
  eapply prints_bind; [exact Hct|]. cbv zeta.
  eapply prints_bind.
  { apply fill_run.
    assert (Hctne : ct ≠ "").
    { intros ->. repeat (apply elem_of_cons in Hin as [Hin|Hin]; [discriminate|]).
      by apply elem_of_nil in Hin. }
    destruct (drug_template_dict_required row drug_dcid ct
                (PyStr.replace "bio/" "" drug_dcid) trade rx_id atc pubchem
                Hne Hctne) as [Hd Ht].
    apply Forall_cons. split; [exists drug_dcid; exact Hd|].
    apply Forall_cons. split; [exists ct; exact Ht|]. constructor. }
  eapply prints_bind; [intros w; apply get_xref_mcf_run|]. apply prints_ret.
Qed.

Lemma write_drug_row_run row :
  ∃ block lines,
    ∀ w, write_drug_row cfg render row w
         = (Ok tt,
            World (mcf_file w ++ [block]) (stdout w ++ lines)
                  (genes_pharm_to_dcid w)
                  (<[DrugRow.PharmGKB_Accession_Id row := get_drug_dcid row]>
                     (drugs_pharm_to_dcid w))).
Proof.
  destruct (get_drug_mcf_run row)
    as (ct & trade & rx_id & atc & pubchem & xref_mcf & ls & _ & Hmcf).
  eexists _, ls. intros w. unfold write_drug_row. cbv zeta.
  unfold bind at 1, set_drug at 1. cbv beta iota.
  unfold bind at 1. rewrite (Hmcf _ (get_drug_dcid_nonempty row)).
  reflexivity.
Qed.

End Writers_run.


(** ** The loops of [main] over the gene rows and the drug rows *)






Section Loops.

Variable cfg : config.
Variable render : string → gmap string string → string.



End Loops.




(** ** A relationship row with a code that the enum tables do not know *)

Lemma get_enum_missing key_list enum_dict w :
  key_list ≠ "" →
  Exists (λ key, enum_dict !! key = None) (PyStr.split "," key_list) →
  ∃ missing,
    missing ∈ PyStr.split "," key_list ∧ enum_dict !! missing = None
    ∧ get_enum key_list enum_dict w = (Raise (KeyError missing), w).
Proof.
  intros Hne Hex. unfold get_enum.
  assert (Ht : PyStr.truthy key_list = true) by (by destruct key_list).
  rewrite Ht. cbn [negb].
  destruct (get_enum_loop_missing enum_dict _ "" w Hex) as (m & Hm & Hn & Hrun).
  exists m. split; [exact Hm|]. split; [exact Hn|]. by erewrite bind_raise.
Qed.

Lemma not_known_codes key_list enum_dict :
  ¬ known_codes key_list enum_dict →
  key_list ≠ ""
  ∧ Exists (λ key, enum_dict !! key = None) (PyStr.split "," key_list).
Proof.
  intros Hn. split.
  - intros ->. apply Hn. by left.
  - assert (Hnf : ¬ Forall (λ key, is_Some (enum_dict !! key))
                       (PyStr.split "," key_list)).
    { intros Hf. apply Hn. by right. }
    apply not_Forall_Exists in Hnf; [|apply _].
    eapply Exists_impl; [exact Hnf|]. intros key Hk. simpl in Hk.
    by apply eq_None_not_Some.
Qed.

Lemma known_codes_dec key_list enum_dict :
  known_codes key_list enum_dict ∨ ¬ known_codes key_list enum_dict.
Proof.
  destruct (decide (key_list = "")) as [->|Hne]; [left; by left|].
  destruct (decide (Forall (λ key, is_Some (enum_dict !! key))
                      (PyStr.split "," key_list))) as [Hf|Hf].
  - left. by right.
  - right. intros [H|H]; [by apply Hne | by apply Hf].
Qed.

Section Relation_cases.

Variable cfg : config.
Variable render : string → gmap string string → string.

Lemma write_relation_row_resolved row drug_is_first w drug_dcid gene_dcids :
  drugs_pharm_to_dcid w !! drug_pharm row drug_is_first = Some drug_dcid →
  genes_pharm_to_dcid w !! gene_pharm row drug_is_first = Some gene_dcids →
  write_relation_row cfg render row drug_is_first w
  = for_each (iter_dcids gene_dcids)
      (λ gene_dcid,
         mcf <- get_relation_mcf cfg render row drug_dcid gene_dcid ;; write mcf) w.
Proof.
  intros Hd Hg. unfold write_relation_row.
  replace (if drug_is_first
           then (RelationRow.Entity1_id row, RelationRow.Entity2_id row)
           else (RelationRow.Entity2_id row, RelationRow.Entity1_id row))
    with (drug_pharm row drug_is_first, gene_pharm row drug_is_first)
    by (by destruct drug_is_first).
  cbv beta iota. unfold bind at 1. unfold read at 1. cbv beta iota.
  case_decide; [congruence|].
  unfold bind at 1. unfold read at 1. cbv beta iota.
  case_decide; [congruence|].
  rewrite (bind_ok _ _ _ _ _ (getitem_Some _ _ _ _ Hd)).
  by rewrite (bind_ok _ _ _ _ _ (getitem_Some _ _ _ _ Hg)).
Qed.

Lemma get_relation_mcf_unknown row drug_dcid gene_dcid w :
  ¬ (known_codes (RelationRow.Association row) (ASSOCIATION_ENUM_DICT cfg)
     ∧ known_codes (RelationRow.Evidence row) (EVIDENCE_ENUM_DICT cfg)) →
  ∃ missing,
    unknown_code cfg row missing
    ∧ get_relation_mcf cfg render row drug_dcid gene_dcid w
      = (Raise (KeyError missing), w).
Proof.
  intros Hn. unfold get_relation_mcf. cbv zeta.
  destruct (known_codes_dec (RelationRow.Association row) (ASSOCIATION_ENUM_DICT cfg))
    as [Ha|Ha].
  - destruct (known_codes_dec (RelationRow.Evidence row) (EVIDENCE_ENUM_DICT cfg))
      as [He|He]; [exfalso; by apply Hn|].
    apply not_known_codes in He as [Hne Hex].
    destruct (get_enum_known _ _ Ha) as (assoc_enum & Hassoc).
    destruct (get_enum_missing _ _ w Hne Hex) as (m & Hm & Hnone & Hrun).
    exists m. split; [right; by repeat split|].
    pose proof (Hassoc w) as Hok. rewrite logged_nil in Hok.
    rewrite (bind_ok _ _ _ _ _ Hok). by rewrite (bind_raise _ _ _ _ _ Hrun).
  - apply not_known_codes in Ha as [Hne Hex].
    destruct (get_enum_missing _ _ w Hne Hex) as (m & Hm & Hnone & Hrun).
    exists m. split; [left; by repeat split|].
    by rewrite (bind_raise _ _ _ _ _ Hrun).
Qed.


End Relation_cases.




(** ** Every stored dcid starts with [bio/] *)

Lemma startswith_nonempty p (s : string) :
  p ≠ "" → PyStr.startswith p s = true → s ≠ "".
Proof. intros Hp Hs ->. destruct p; [by apply Hp | discriminate]. Qed.

Lemma dcids_prefixed_maps (w w' : world) :
  genes_pharm_to_dcid w' = genes_pharm_to_dcid w →
  drugs_pharm_to_dcid w' = drugs_pharm_to_dcid w →
  dcids_prefixed w → dcids_prefixed w'.
Proof. unfold dcids_prefixed. by intros -> ->. Qed.

Lemma dcids_prefixed_empty file out : dcids_prefixed (World file out ∅ ∅).
Proof.
  split; intros k v Hk; simpl in Hk; by rewrite lookup_empty in Hk.
Qed.

Lemma get_gene_dcids_prefixed (symbol : string) :
  Forall (λ gene_dcid, PyStr.startswith "bio/" gene_dcid = true)
         (iter_dcids (get_gene_dcids symbol)).
Proof.
  unfold get_gene_dcids. destruct (PyStr.truthy symbol); simpl; by repeat constructor.
Qed.

Lemma get_drug_dcid_prefixed (row : DrugRow.t) :
  PyStr.startswith "bio/" (get_drug_dcid row) = true.
Proof. unfold get_drug_dcid. by destruct (PyStr.truthy _). Qed.

Lemma dcids_prefixed_set_gene (w : world) file out pharm_id symbol :
  dcids_prefixed w →
  dcids_prefixed (World file out
                    (<[pharm_id := get_gene_dcids symbol]> (genes_pharm_to_dcid w))
                    (drugs_pharm_to_dcid w)).
Proof.
  intros [Hd Hg]. split; simpl.
  - exact Hd.
  - intros k v Hk. destruct (decide (pharm_id = k)) as [->|Hne].
    + rewrite lookup_insert_eq in Hk. injection Hk as <-.
      apply get_gene_dcids_prefixed.
    + rewrite lookup_insert_ne in Hk by exact Hne. by eapply Hg.
Qed.

Lemma dcids_prefixed_set_drug (w : world) file out (row : DrugRow.t) :
  dcids_prefixed w →
  dcids_prefixed (World file out (genes_pharm_to_dcid w)
                    (<[DrugRow.PharmGKB_Accession_Id row := get_drug_dcid row]>
                       (drugs_pharm_to_dcid w))).
Proof.
  intros [Hd Hg]. split; cbn [genes_pharm_to_dcid drugs_pharm_to_dcid].
  - intros k v Hk.
    destruct (decide (DrugRow.PharmGKB_Accession_Id row = k)) as [E|Hne].
    + rewrite <- E, lookup_insert_eq in Hk. injection Hk as <-.
      apply get_drug_dcid_prefixed.
    + rewrite lookup_insert_ne in Hk by exact Hne. by eapply Hd.
  - exact Hg.
Qed.

Section Relation_dichotomy.

Variable cfg : config.
Variable render : string → gmap string string → string.

Lemma write_relation_row_cases row drug_is_first w :
  dcids_prefixed w →
  (∃ blocks lines,
     write_relation_row cfg render row drug_is_first w
     = (Ok tt, World (mcf_file w ++ blocks) (stdout w ++ lines)
                     (genes_pharm_to_dcid w) (drugs_pharm_to_dcid w)))
  ∨ (∃ missing,
       unknown_code cfg row missing
       ∧ write_relation_row cfg render row drug_is_first w
         = (Raise (KeyError missing), w)).
Proof.
  intros [Hpd Hpg].
  destruct (drugs_pharm_to_dcid w !! drug_pharm row drug_is_first)
    as [drug_dcid|] eqn:Ed.
  2:{ left. exists [], ["unrecognized drug pharm id: " +:+ drug_pharm row drug_is_first].
      rewrite (write_relation_row_no_drug cfg render _ _ _ Ed).
      unfold logged. by rewrite app_nil_r. }
  destruct (genes_pharm_to_dcid w !! gene_pharm row drug_is_first)
    as [gene_dcids|] eqn:Eg.
  2:{ left. exists [], ["unrecognized gene pharm id: " +:+ gene_pharm row drug_is_first].
      rewrite (write_relation_row_no_gene cfg render _ _ _) by (by rewrite ?Ed).
      unfold logged. by rewrite app_nil_r. }
  destruct (known_codes_dec (RelationRow.Association row) (ASSOCIATION_ENUM_DICT cfg))
    as [Ha|Ha];
    [destruct (known_codes_dec (RelationRow.Evidence row) (EVIDENCE_ENUM_DICT cfg))
       as [He|He]|].
  - left.
    destruct (get_enum_known _ _ Ha) as (assoc_enum & Hassoc).
    destruct (get_enum_known _ _ He) as (evid_enum & Hevid).
    pose (block := λ gene_dcid,
            render (RELATION_TEMPLATE cfg)
              (relation_template_dict drug_dcid gene_dcid
                 (PyStr.replace "bio/" "" drug_dcid) (PyStr.replace "bio/" "" gene_dcid)
                 (format_semicolon_list (RelationRow.PMIDs row))
                 (format_bool (RelationRow.PK row) "PK")
                 (format_bool (RelationRow.PD row) "PD")
                 assoc_enum evid_enum)).
    exists (block <$> iter_dcids gene_dcids), [].
    rewrite (write_relation_row_resolved cfg render _ _ _ _ _ Ed Eg).
    rewrite (write_blocks_run _ _ block).
    + unfold written. by rewrite app_nil_r.
    + eapply Forall_impl; [exact (Hpg _ _ Eg)|]. intros gene_dcid Hs. simpl in Hs.
      apply (get_relation_mcf_run cfg render row drug_dcid gene_dcid
               assoc_enum evid_enum Hassoc Hevid).
      * apply (startswith_nonempty "bio/"); [discriminate | by eapply Hpd].
      * by apply (startswith_nonempty "bio/").
  - destruct (iter_dcids gene_dcids) as [|gene_dcid rest] eqn:Ei.
    + left. exists [], []. rewrite (write_relation_row_resolved cfg render _ _ _ _ _ Ed Eg).
      rewrite Ei. simpl. unfold ret. rewrite !app_nil_r. by destruct w.
    + right.
      destruct (get_relation_mcf_unknown cfg render row drug_dcid gene_dcid w)
        as (m & Hm & Hrun); [by intros [_ ?]|].
      exists m. split; [exact Hm|].
      rewrite (write_relation_row_resolved cfg render _ _ _ _ _ Ed Eg), Ei.
      cbn [for_each]. erewrite bind_raise; [reflexivity|]. by erewrite bind_raise.
  - destruct (iter_dcids gene_dcids) as [|gene_dcid rest] eqn:Ei.
    + left. exists [], []. rewrite (write_relation_row_resolved cfg render _ _ _ _ _ Ed Eg).
      rewrite Ei. simpl. unfold ret. rewrite !app_nil_r. by destruct w.
    + right.
      destruct (get_relation_mcf_unknown cfg render row drug_dcid gene_dcid w)
        as (m & Hm & Hrun); [by intros [? _]|].
      exists m. split; [exact Hm|].
      rewrite (write_relation_row_resolved cfg render _ _ _ _ _ Ed Eg), Ei.
      cbn [for_each]. erewrite bind_raise; [reflexivity|]. by erewrite bind_raise.
Qed.


End Relation_dichotomy.

(** X10. The dcids kept in the two identifier maps always start with
    [bio/]: this holds for empty maps, and if it holds before
    [write_gene_row], [write_drug_row] or [write_relation_row] runs on any
    row, it holds afterwards, whether the call returns or raises. *)
Theorem X10_dcids_prefixed (cfg : config)
    (render : string → gmap string string → string) (w : world) :
  dcids_prefixed w →
  (∀ row, dcids_prefixed (write_gene_row cfg render row w).2)
  ∧ (∀ row, dcids_prefixed (write_drug_row cfg render row w).2)
  ∧ (∀ row drug_is_first,
       dcids_prefixed (write_relation_row cfg render row drug_is_first w).2)
  ∧ (∀ file out, dcids_prefixed (World file out ∅ ∅)).
Proof.
  intros Hp. repeat apply conj.
  - intros row. destruct (write_gene_row_run cfg render row) as (bs & ls & _ & Hrun).
    rewrite Hrun. cbn [snd]. by apply dcids_prefixed_set_gene.
  - intros row. destruct (write_drug_row_run cfg render row) as (b & ls & Hrun).
    rewrite Hrun. cbn [snd]. by apply dcids_prefixed_set_drug.
  - intros row drug_is_first.
    destruct (write_relation_row_cases cfg render row drug_is_first w Hp)
      as [(bs & ls & Hrun)|(m & _ & Hrun)]; rewrite Hrun; cbn [snd].
    + by apply (dcids_prefixed_maps w).
    + exact Hp.
  - apply dcids_prefixed_empty.
Qed.

Lemma X10_dcids_prefixed_witness :
  dcids_prefixed Sample.w0
  ∧ dcids_prefixed
      (write_gene_row Sample.cfg Sample.render (Sample.gene "PA1" "ABC") Sample.w0).2.
Proof.
  assert (H : dcids_prefixed Sample.w0) by apply dcids_prefixed_empty.
  split; [exact H|].
  exact (proj1 (X10_dcids_prefixed Sample.cfg Sample.render Sample.w0 H)
           (Sample.gene "PA1" "ABC")).
Defined.


(** ** The emission part of [main] *)




Section Emit.

Variable cfg : config.
Variable render : string → gmap string string → string.


End Emit.






(** ** The identifiers of the association blocks of a gene and a drug *)








(** ** What reaches the template filler *)

Lemma lookup_drop_empty_inv (m : gmap string string) k v :
  drop_empty m !! k = Some v → m !! k = Some v ∧ v ≠ "".
Proof.
  unfold drop_empty. intros [Hk Hv]%map_lookup_filter_Some. split; [exact Hk|].
  intros ->. discriminate.
Qed.

Lemma lookup_drop_empty_None (m : gmap string string) k :
  m !! k = Some "" → drop_empty m !! k = None.
Proof.
  intros Hk. unfold drop_empty. apply map_lookup_filter_None_2. right.
  intros v Hv. rewrite Hk in Hv. injection Hv as <-. discriminate.
Qed.

Lemma relation_template_dict_pk drug_dcid gene_dcid drug_ref gene_ref
    pubmed pk pd_bool assoc_enum evid_enum :
  relation_template_dict drug_dcid gene_dcid drug_ref gene_ref
    pubmed (format_bool pk "PK") pd_bool assoc_enum evid_enum !! "pk_bool"
  = if decide (pk = "PK") then Some "True" else None.
Proof.
  unfold relation_template_dict, format_bool. simpl list_to_map.
  destruct (decide (pk = "PK")).
  - apply lookup_drop_empty_Some; [|discriminate].
    rewrite !lookup_insert_ne by discriminate. apply lookup_insert_eq.
  - apply lookup_drop_empty_None.
    rewrite !lookup_insert_ne by discriminate. apply lookup_insert_eq.
Qed.

Lemma relation_template_dict_pubmed drug_dcid gene_dcid drug_ref gene_ref
    pk_bool pd_bool assoc_enum evid_enum :
  relation_template_dict drug_dcid gene_dcid drug_ref gene_ref
    (format_semicolon_list "") pk_bool pd_bool assoc_enum evid_enum !! "pubmed_ids"
  = None.
Proof.
  unfold relation_template_dict. simpl list_to_map.
  apply lookup_drop_empty_None.
  rewrite !lookup_insert_ne by discriminate. apply lookup_insert_eq.
Qed.

(** X14. No empty value reaches the template filler: none of the three
    template dictionaries binds a key to the empty string. In particular
    the relationship dictionary binds [pk_bool] to [True] when the PK cell
    is exactly [PK] and has no [pk_bool] key otherwise, and it has no
    [pubmed_ids] key when the PMIDs cell is empty. *)
Theorem X14_no_empty_field (gene : GeneRow.t) (drug : DrugRow.t)
    (a b c d e f g h i : string) (key value : string) :
  (gene_template_dict gene a b c d e !! key = Some value → value ≠ "")
  ∧ (drug_template_dict drug a b c d e f g !! key = Some value → value ≠ "")
  ∧ (relation_template_dict a b c d e f g h i !! key = Some value → value ≠ "")
  ∧ relation_template_dict a b c d e (format_bool f "PK") g h i !! "pk_bool"
    = (if decide (f = "PK") then Some "True" else None)
  ∧ relation_template_dict a b c d (format_semicolon_list "") f g h i !! "pubmed_ids"
    = None.
Proof.
  split; [|split; [|split; [|split]]].
  - intros H. exact (proj2 (lookup_drop_empty_inv _ _ _ H)).
  - intros H. exact (proj2 (lookup_drop_empty_inv _ _ _ H)).
  - intros H. exact (proj2 (lookup_drop_empty_inv _ _ _ H)).
  - apply relation_template_dict_pk.
  - apply relation_template_dict_pubmed.
Qed.

Lemma X14_no_empty_field_witness :
  let gene := Sample.gene "PA128" "CYP2D6" in
  let drug := DrugRow.Make "PA1" "" "" "" "" "" "" "" "" "" "" "" in
  gene_template_dict gene "bio/hg19_CYP2D6" "" "" "" "" !! "symbol" = Some "CYP2D6"
  ∧ "CYP2D6" ≠ ""
  ∧ gene_template_dict gene "bio/hg19_CYP2D6" "" "" "" "" !! "ncbi_ids" = None.
Proof.
  intros gene drug.
  assert (H : gene_template_dict gene "bio/hg19_CYP2D6" "" "" "" "" !! "symbol"
              = Some "CYP2D6") by (vm_compute; reflexivity).
  split; [exact H|]. split; [|vm_compute; reflexivity].
  exact (proj1 (X14_no_empty_field gene drug "bio/hg19_CYP2D6" "" "" "" "" "" "" "" ""
                  "symbol" "CYP2D6") H).
Defined.

(** ** A PharmGKB id that occurs in several rows *)






